(** * posts.api: the JSON endpoints of the blog API

    A shallow embedding of [posts/api.py]: the five endpoints over the
    [posts] table, the content-negotiation decorators they are wrapped in,
    the JSON-Schema validation of the request body and the ORM session
    they talk to.

    Flask's request context, the session and the exceptions a handler can
    raise are threaded through one small monad [M]; every call made on
    the session is recorded in a trace. *)

From Stdlib Require Import ZArith List String Ascii Bool Lia.
From Stdlib Require Import Sorting.Permutation Sorting.Sorted.
From Stdlib Require Import DecimalString.
Import ListNotations.

Set Warnings "-register-all".

Local Open Scope string_scope.
Local Open Scope Z_scope.

(** ** Text helpers: the few string operations of header parsing and
    message formatting. *)
Module text.

(** [str(n)] for a Python int. *)
Definition str (n : Z) : string := NilZero.string_of_int (Z.to_int n).

Definition is_space (a : ascii) : bool :=
  Ascii.eqb a " "%char || Ascii.eqb a "009"%char.

Fixpoint lstrip (s : string) : string :=
  match s with
  | String a r => if is_space a then lstrip r else s
  | EmptyString => EmptyString
  end.

Fixpoint rstrip (s : string) : string :=
  match s with
  | EmptyString => EmptyString
  | String a r =>
      match rstrip r with
      | EmptyString => if is_space a then EmptyString else String a EmptyString
      | r' => String a r'
      end
  end.

Definition strip (s : string) : string := rstrip (lstrip s).

(** The part of [s] before the first [c] (all of [s] when there is none). *)
Fixpoint before (c : ascii) (s : string) : string :=
  match s with
  | EmptyString => EmptyString
  | String a r => if Ascii.eqb a c then EmptyString else String a (before c r)
  end.

(** [s.split(c)]. *)
Fixpoint split (c : ascii) (s : string) : list string :=
  match s with
  | EmptyString => [EmptyString]
  | String a r =>
      if Ascii.eqb a c then EmptyString :: split c r
      else match split c r with
           | h :: t => String a h :: t
           | [] => [String a EmptyString]
           end
  end.

(** [sub in s] for Python strings: [sub] occurs in [s] as a contiguous,
    character-for-character block. *)
Fixpoint contains (s sub : string) : bool :=
  String.prefix sub s ||
  match s with
  | EmptyString => false
  | String _ r => contains r sub
  end.

End text.

(** ** JSON documents, as [json.loads] builds them and [json.dumps] takes
    them: [None], [bool], [int], [float], [str], [list] and [dict]. A
    [dict] is kept as an association list read at its first binding. *)
Inductive json : Type :=
| JNull
| JBool (b : bool)
| JInt (n : Z)
| JFloat (mantissa exponent : Z)
| JString (s : string)
| JArray (items : list json)
| JObject (members : list (string * json)).

Module py.

(** The exceptions a handler can leave unhandled. *)
Inductive exn : Type :=
| BadRequest       (* request.json on a body that does not decode *)
| TypeError
| KeyError
| AttributeError.

Inductive result (A : Type) : Type :=
| Ok (a : A)
| Raise (e : exn).
Arguments Ok {A} a.
Arguments Raise {A} e.

Fixpoint dict_get (members : list (string * json)) (key : string) : option json :=
  match members with
  | [] => None
  | (k, v) :: rest => if String.eqb k key then Some v else dict_get rest key
  end.

(** [key in data]. *)
Definition has_key (members : list (string * json)) (key : string) : bool :=
  match dict_get members key with Some _ => true | None => false end.

(** [data[key]] with a string key: a [dict] answers or raises [KeyError];
    anything else cannot be indexed by a string. *)
Definition getitem (data : json) (key : string) : result json :=
  match data with
  | JObject members =>
      match dict_get members key with
      | Some v => Ok v
      | None => Raise KeyError
      end
  | _ => Raise TypeError
  end.

End py.

(** ** jsonschema: the two keywords [post_schema] uses.

    [properties] and [required] apply to objects only and let every other
    instance through; [type] compares the instance's JSON type. [validate]
    raises the most relevant error ([best_match]: the error highest in the
    instance, the first one among equals). The message of a [type] error
    starts with Python's [repr] of the offending value, which is taken as
    a parameter. *)
Module jsonschema.

Inductive jtype : Type :=
| TNull | TBoolean | TInteger | TNumber | TString | TArray | TObject.

Definition type_name (t : jtype) : string :=
  match t with
  | TNull => "null" | TBoolean => "boolean" | TInteger => "integer"
  | TNumber => "number" | TString => "string" | TArray => "array"
  | TObject => "object"
  end.

Definition is_type (instance : json) (t : jtype) : bool :=
  match t, instance with
  | TNull, JNull => true
  | TBoolean, JBool _ => true
  | TInteger, JInt _ => true
  | TNumber, JInt _ => true
  | TNumber, JFloat _ _ => true
  | TString, JString _ => true
  | TArray, JArray _ => true
  | TObject, JObject _ => true
  | _, _ => false
  end.

(** A schema with a ["properties"] map of [{"type": t}] subschemas and a
    ["required"] list; a schema has no keyword besides these two. *)
Record schema : Type := mkSchema {
  properties : list (string * jtype);
  required : list string
}.

Record ValidationError : Type := mkError {
  message : string;
  path : list string;        (* where in the instance the error sits *)
  validator : string         (* the keyword that failed *)
}.

Section WithRepr.

Variable repr : json -> string.

Definition type_error (property : string) (instance : json) (t : jtype)
  : ValidationError :=
  mkError (repr instance ++ " is not of type '" ++ type_name t ++ "'")
          [property] "type".

Definition required_error (property : string) : ValidationError :=
  mkError ("'" ++ property ++ "' is a required property") [] "required".

(** The [properties] keyword: each declared property that is present is
    checked against its subschema. *)
Fixpoint properties_errors (props : list (string * jtype))
         (members : list (string * json)) : list ValidationError :=
  match props with
  | [] => []
  | (property, t) :: rest =>
      match py.dict_get members property with
      | Some v =>
          if is_type v t then properties_errors rest members
          else type_error property v t :: properties_errors rest members
      | None => properties_errors rest members
      end
  end.

(** The [required] keyword. *)
Fixpoint required_errors (req : list string)
         (members : list (string * json)) : list ValidationError :=
  match req with
  | [] => []
  | property :: rest =>
      if py.has_key members property then required_errors rest members
      else required_error property :: required_errors rest members
  end.

(** The errors in keyword order, ["properties"] before ["required"] as
    the schema literal has them. *)
Definition iter_errors (instance : json) (sch : schema) : list ValidationError :=
  match instance with
  | JObject members =>
      properties_errors (properties sch) members
      ++ required_errors (required sch) members
  | _ => []
  end.

(** [best_match]: the first error among those with the shortest path
    (neither keyword is a weak or a strong match). *)
Fixpoint best_match (errors : list ValidationError) : option ValidationError :=
  match errors with
  | [] => None
  | e :: rest =>
      match best_match rest with
      | Some e' =>
          if (List.length (path e) <=? List.length (path e'))%nat then Some e else Some e'
      | None => Some e
      end
  end.

(** [validate(instance, schema)]: [Some error] is the raised
    [ValidationError], [None] the silent return. *)
Definition validate (instance : json) (sch : schema) : option ValidationError :=
  best_match (iter_errors instance sch).

End WithRepr.

End jsonschema.

(** ** sql: the pattern matching of the database. *)
Module sql.

(** [s LIKE pattern] with no escape character: [%] stands for any run of
    characters, [_] for any one character, every other character for
    itself. *)
Fixpoint like (pattern : string) : string -> bool :=
  match pattern with
  | EmptyString =>
      fun s => match s with EmptyString => true | String _ _ => false end
  | String c rest =>
      if Ascii.eqb c "%"%char then
        fix skip (s : string) : bool :=
          like rest s
          || match s with
             | EmptyString => false
             | String _ s' => skip s'
             end
      else
        fun s =>
          match s with
          | EmptyString => false
          | String a s' => (Ascii.eqb c "_"%char || Ascii.eqb a c) && like rest s'
          end
  end.

(** A text with no wildcard in it. *)
Fixpoint plain (s : string) : bool :=
  match s with
  | EmptyString => true
  | String c r => negb (Ascii.eqb c "%"%char) && negb (Ascii.eqb c "_"%char) && plain r
  end.

End sql.

(** ** models: the [Post] entity.

    [posts/models.py] is not part of the sources at hand. *)
Module models.

(** Modelled from the spec: the entity declared in [posts/models.py]
    (absent here), with the attributes of section 3, "[id] (integer,
    generated by the store), [title] (string), [body] (string)". *)
Record Post : Type := mkPost {
  id : Z;
  title : string;
  body : string
}.

(** Modelled from the spec: [Post.as_dictionary] of [posts/models.py]
    (absent here), the "record-to-mapping serializer" of section 6 whose
    output section 8 gives as [{"id": n, "title": t, "body": b}]. *)
Definition as_dictionary (post : Post) : json :=
  JObject [("id", JInt (id post));
           ("title", JString (title post));
           ("body", JString (body post))].

(** Modelled from the spec: the column operator [contains] of the mapped
    class in [posts/models.py] (absent here), the filter of section 4.3.
    The ORM renders it as [column LIKE '%' || other || '%'] without an
    escape, so a [%] or a [_] inside [other] is a wildcard; every other
    character is compared exactly, the "case-sensitive" of the spec. *)
Definition contains (column other : string) : bool :=
  sql.like ("%" ++ other ++ "%") column.

End models.

(** ** flask: what the endpoints read from the request and build as a
    response. *)
Module flask.

Record Request : Type := mkRequest {
  accept_header : option string;          (* the Accept header, when sent *)
  content_type : option string;           (* the Content-Type header, when sent *)
  args : list (string * string);          (* the query string *)
  json_body : option json                 (* the decoded body; None when it does not decode *)
}.

(** [request.args.get(key)]. *)
Fixpoint args_get (a : list (string * string)) (key : string) : option string :=
  match a with
  | [] => None
  | (k, v) :: rest => if String.eqb k key then Some v else args_get rest key
  end.

(** [Response(json.dumps(data), status, headers=headers, mimetype=mimetype)];
    [data] is the document handed to [json.dumps]. *)
Record Response : Type := mkResponse {
  data : json;
  status : Z;
  headers : list (string * string);
  mimetype : string
}.

(** [url_for("post_get", id=n)] under the rule ["/api/posts/<int:id>"]. *)
Definition url_for_post_get (n : Z) : string := "/api/posts/" ++ text.str n.

End flask.

(** ** database: the global ORM session.

    [posts/database.py], which creates the session, is not part of the
    sources at hand. *)
Module database.

Import models.
Local Open Scope list_scope.

(** A change registered with the session and not written yet. *)
Inductive change : Type :=
| Insert (t b : string)     (* a new instance, handed to [add] *)
| Update (p : Post)         (* a loaded instance whose attributes were set *)
| Remove (p : Post).        (* a loaded instance handed to [delete] *)

(** Modelled from the spec: the session of [posts/database.py] (absent
    here), the "relational store + ORM session providing query, filter,
    add, delete, commit" of section 2. The spec names the operations; what
    they do is the unit of work of the ORM, under the defaults of its
    session factory: [add] and [delete] register a change, a flush writes
    the registered changes to the rows of the open transaction, a query
    flushes before it reads, and [commit] flushes and makes those rows the
    committed ones. *)
Record Session : Type := mkSession {
  committed : list Post;      (* the rows as of the last commit *)
  table : list Post;          (* the rows the open transaction sees *)
  pending : list change;      (* registered, not flushed *)
  serial : Z                  (* the next generated id *)
}.

(** The calls made on the session, as the trace records them. *)
Inductive call : Type :=
| CQuery
| CGet (n : Z)
| CAdd
| CDelete
| CCommit.

Fixpoint find (rows : list Post) (n : Z) : option Post :=
  match rows with
  | [] => None
  | p :: rest => if id p =? n then Some p else find rest n
  end.

(** The instance with primary key [n] the session holds on to because a
    change of it is registered (its identity map); the latest state
    counts. *)
Fixpoint identity (changes : list change) (n : Z) : option Post :=
  match changes with
  | [] => None
  | c :: rest =>
      match identity rest n with
      | Some p => Some p
      | None =>
          match c with
          | Update p | Remove p => if id p =? n then Some p else None
          | Insert _ _ => None
          end
      end
  end.

Definition replace (p : Post) (rows : list Post) : list Post :=
  map (fun r => if id r =? id p then p else r) rows.

Definition remove (p : Post) (rows : list Post) : list Post :=
  filter (fun r => negb (id r =? id p)) rows.

(** One registered change written to the rows; [ins] collects the
    instances inserted, with their generated ids. *)
Definition write (st : list Post * Z * list Post) (c : change)
  : list Post * Z * list Post :=
  let '(rows, next, ins) := st in
  match c with
  | Insert t b => let p := mkPost next t b in (rows ++ [p], next + 1, ins ++ [p])
  | Update p => (replace p rows, next, ins)
  | Remove p => (remove p rows, next, ins)
  end.

Definition flush (s : Session) : Session * list Post :=
  let '(rows, next, ins) := fold_left write (pending s) (table s, serial s, []) in
  (mkSession (committed s) rows [] next, ins).

(** [order_by(Post.id)]: ascending, by insertion. *)
Fixpoint insert_by_id (p : Post) (rows : list Post) : list Post :=
  match rows with
  | [] => [p]
  | q :: rest => if id p <=? id q then p :: q :: rest else q :: insert_by_id p rest
  end.

Fixpoint order_by_id (rows : list Post) : list Post :=
  match rows with
  | [] => []
  | p :: rest => insert_by_id p (order_by_id rest)
  end.

End database.

(** ** The handler monad: the request in context, the session threaded
    through, the trace of session calls written out, and Python
    exceptions as early exits. *)
Module ctx.

Import py flask database.
Local Open Scope list_scope.

Definition M (A : Type) : Type :=
  Request -> Session -> result A * Session * list call.

Definition ret {A : Type} (a : A) : M A := fun _ s => (Ok a, s, []).

Definition raise {A : Type} (e : exn) : M A := fun _ s => (Raise e, s, []).

Definition bind {A B : Type} (m : M A) (k : A -> M B) : M B :=
  fun req s =>
    match m req s with
    | (Ok a, s1, t1) => let '(r, s2, t2) := k a req s1 in (r, s2, t1 ++ t2)
    | (Raise e, s1, t1) => (Raise e, s1, t1)
    end.

Definition lift {A : Type} (r : result A) : M A := fun _ s => (r, s, []).

(** The [request] global of flask. *)
Definition request : M Request := fun req s => (Ok req, s, []).

End ctx.

Declare Scope handler_scope.
Delimit Scope handler_scope with handler.
Notation "x <- m ;; k" := (ctx.bind m (fun x => k))
  (at level 61, m at next level, right associativity) : handler_scope.
Notation "m ;; k" := (ctx.bind m (fun _ => k))
  (at level 61, right associativity) : handler_scope.

(** ** session: the calls the endpoints make on the global session, with
    the behaviour the ORM documents for them. *)
Module session.

Import py models flask database ctx.
Local Open Scope list_scope.

(** A query under construction: [session.query(models.Post)] with its
    [filter] criteria and whether [order_by(models.Post.id)] was asked. *)
Record Query : Type := mkQuery {
  criteria : list (Post -> bool);
  ordered : bool
}.

Definition query : Query := mkQuery [] false.

Definition filter (q : Query) (criterion : Post -> bool) : Query :=
  mkQuery (criteria q ++ [criterion]) (ordered q).

Definition order_by_id (q : Query) : Query := mkQuery (criteria q) true.

Definition select (q : Query) (rows : list Post) : list Post :=
  let kept := List.filter (fun p => forallb (fun c => c p) (criteria q)) rows in
  if ordered q then database.order_by_id kept else kept.

(** Iterating over the query: the session flushes, then the rows are
    selected. *)
Definition all (q : Query) : M (list Post) :=
  fun _ s =>
    let s' := fst (flush s) in
    (Ok (select q (table s')), s', [CQuery]).

(** [session.query(models.Post).get(n)]: an instance the session holds is
    returned as it is, without a look at the table; otherwise the
    session flushes and the row is loaded. *)
Definition get (n : Z) : M (option Post) :=
  fun _ s =>
    match identity (pending s) n with
    | Some p => (Ok (Some p), s, [CGet n])
    | None =>
        let s' := fst (flush s) in
        (Ok (find (table s') n), s', [CGet n])
    end.

Definition count_inserts (changes : list change) : nat :=
  List.length (List.filter (fun c => match c with Insert _ _ => true | _ => false end)
                           changes).

(** [session.add(post)] for a new [models.Post(title=t, body=b)]. The
    answer stands for the Python object: its rank among the instances
    waiting to be inserted. *)
Definition add_new (t b : string) : M nat :=
  fun _ s =>
    (Ok (count_inserts (pending s)),
     mkSession (committed s) (table s) (pending s ++ [Insert t b]) (serial s),
     [CAdd]).

Definition unmark (p : Post) (changes : list change) : list change :=
  List.filter (fun c => match c with
                        | Remove q => negb (id q =? id p)
                        | _ => true
                        end) changes.

(** [session.add(post)] for a loaded instance whose attributes were set:
    its new state waits for the flush, and a deletion registered for it
    is dropped. *)
Definition add (p : Post) : M unit :=
  fun _ s =>
    (Ok tt,
     mkSession (committed s) (table s) (unmark p (pending s) ++ [Update p]) (serial s),
     [CAdd]).

(** [session.delete(post)]. *)
Definition delete (p : Post) : M unit :=
  fun _ s =>
    (Ok tt,
     mkSession (committed s) (table s) (pending s ++ [Remove p]) (serial s),
     [CDelete]).

(** [session.commit()]: flush, then the rows of the transaction become
    the committed rows. The answer lists the instances the flush
    inserted, in the order they were added. *)
Definition commit : M (list Post) :=
  fun _ s =>
    let '(s', inserted) := flush s in
    (Ok inserted, mkSession (table s') (table s') (pending s') (serial s'), [CCommit]).

(** The state of a new instance after the commit that inserted it. The
    flush inserts every instance waiting, so the rank is always found. *)
Definition refreshed (handle : nat) (inserted : list Post) : M Post :=
  match nth_error inserted handle with
  | Some p => ret p
  | None => raise AttributeError
  end.

End session.

(** ** decorators: the two request guards.

    [posts/decorators.py] is not part of the sources at hand. *)
Module decorators.

Import py flask database ctx.

(** Modelled from the spec: the header of section 3, "a comma-separated,
    weighted list of media-type patterns"; each item is read without its
    parameters (the weight) and surrounding blanks. *)
Definition patterns (header : string) : list string :=
  map (fun item => text.strip (text.before ";" item)) (text.split "," header).

(** Modelled from the spec: the matching rule of section 4.1, "literal
    equality, or the pattern's type matches and the pattern's subtype is
    [*], or the pattern is [*/*]". *)
Definition matches (supported pattern : string) : bool :=
  String.eqb pattern supported
  || String.eqb pattern (text.before "/" supported ++ "/*")
  || String.eqb pattern "*/*".

(** Modelled from the spec: the decision rule of section 4.1; a "missing
    header is treated as matches everything". *)
Definition acceptable (supported : string) (header : option string) : bool :=
  match header with
  | None => true
  | Some h => existsb (matches supported) (patterns h)
  end.

(** Modelled from the spec: the answer of a guard that rejects, a "JSON
    body [{"message": ...}], content-type [application/json]". *)
Definition message_response (msg : string) (code : Z) : Response :=
  mkResponse (JObject [("message", JString msg)]) code [] "application/json".

(** Modelled from the spec: [accept] of [posts/decorators.py] (absent
    here), the Accept-guard of section 4.1: a missing header accepts
    anything, a header is accepted when one of its patterns matches the
    supported type; on reject the endpoint is not called and the answer
    is 406 with the message of section 8, the one the test
    [test_unsupported_accept_header] expects. *)
Definition accept (mimetype : string) (func : M Response) : M Response :=
  fun req s =>
    if acceptable mimetype (accept_header req) then func req s
    else (Ok (message_response ("Request must accept " ++ mimetype ++ " data") 406),
          s, []%list).

(** Modelled from the spec: the "type+subtype" of the Content-Type header,
    "parameters such as charset ignored"; the empty string when the header
    is missing. *)
Definition request_mimetype (req : Request) : string :=
  match content_type req with
  | Some h => text.strip (text.before ";" h)
  | None => ""
  end.

(** Modelled from the spec: [require] of [posts/decorators.py] (absent
    here), the Require-guard of section 4.1: it "accepts only if the
    header's type+subtype matches [required_type] exactly (parameters
    such as charset ignored)"; on reject the endpoint is not called and
    the answer is 415. *)
Definition require (mimetype : string) (func : M Response) : M Response :=
  fun req s =>
    if String.eqb (request_mimetype req) mimetype then func req s
    else (Ok (message_response ("Request must contain " ++ mimetype ++ " data") 415),
          s, []%list).

End decorators.

(** ** posts.api: the endpoints. *)
Module api.

Import py models flask database ctx jsonschema.
Local Open Scope handler_scope.

(** JSON Schema describing the structure of a post. *)
Definition post_schema : schema :=
  mkSchema [("title", TString); ("body", TString)] ["title"; "body"].

(** [request.args.get(key)]. *)
Definition request_args_get (key : string) : M (option string) :=
  req <- request ;; ret (args_get (args req) key).

(** [request.json]. *)
Definition request_json : M json :=
  req <- request ;;
  match json_body req with
  | Some document => ret document
  | None => raise BadRequest
  end.

(** A column of [models.Post] takes a string. The other branch is never
    taken: a validated object has strings under both keys. *)
Definition as_str (v : json) : M string :=
  match v with
  | JString s => ret s
  | _ => raise TypeError
  end.

(** [if value:] for an optional string. *)
Definition truthy (value : option string) : option string :=
  match value with
  | Some "" => None
  | other => other
  end.

Definition json_response (document : json) (code : Z) : Response :=
  mkResponse document code [] "application/json".

Definition message (msg : string) : json := JObject [("message", JString msg)].

(** Get a list of posts. *)
Definition posts_get_def : M Response :=
  (* Get the querystring arguments *)
  title_like <- request_args_get "title_like" ;;
  content_like <- request_args_get "content_like" ;;
  (* Get and filter the posts from the database *)
  let posts := session.query in
  let posts :=
    match truthy title_like with
    | Some like => session.filter posts (fun p => contains (title p) like)
    | None => posts
    end in
  let posts :=
    match truthy content_like with
    | Some like => session.filter posts (fun p => contains (body p) like)
    | None => posts
    end in
  let posts := session.order_by_id posts in
  (* Convert the posts to JSON and return a response *)
  rows <- session.all posts ;;
  ret (json_response (JArray (map as_dictionary rows)) 200).

Definition posts_get : M Response :=
  decorators.accept "application/json" posts_get_def.

(** Single post endpoint. *)
Definition post_get_def (n : Z) : M Response :=
  post <- session.get n ;;
  match post with
  | None =>
      ret (json_response (message ("Could not find post with id " ++ text.str n)) 404)
  | Some post =>
      ret (json_response (as_dictionary post) 200)
  end.

Definition post_get (n : Z) : M Response :=
  decorators.accept "application/json" (post_get_def n).

(** Delete a post. *)
Definition post_delete_def (n : Z) : M Response :=
  post <- session.get n ;;
  match post with
  | None =>
      ret (json_response (message ("Could not find post with id " ++ text.str n)) 404)
  | Some post =>
      session.delete post ;;
      ret (json_response (message ("Deleted post with id " ++ text.str n)) 200)
  end.

Definition post_delete (n : Z) : M Response :=
  decorators.accept "application/json" (post_delete_def n).

Section WithRepr.

Variable repr : json -> string.

(** Add a new post. *)
Definition posts_post_def : M Response :=
  data <- request_json ;;
  match validate repr data post_schema with
  | Some error =>
      ret (json_response (message (jsonschema.message error)) 422)
  | None =>
      (* Add the post to the database *)
      t <- lift (getitem data "title") ;;
      t <- as_str t ;;
      b <- lift (getitem data "body") ;;
      b <- as_str b ;;
      post <- session.add_new t b ;;
      inserted <- session.commit ;;
      post <- session.refreshed post inserted ;;
      (* Return a 201 Created, containing the post as JSON and with the
         Location header set to the location of the post *)
      ret (mkResponse (as_dictionary post) 201
                      [("Location", url_for_post_get (id post))]
                      "application/json")
  end.

Definition posts_post : M Response :=
  decorators.accept "application/json"
    (decorators.require "application/json" posts_post_def).

(** [post.body = b] and [post.title = t] on what the lookup gave:
    setting an attribute of [None] raises. *)
Definition set_body (post : option Post) (b : string) : M Post :=
  match post with
  | Some p => ret (mkPost (id p) (title p) b)
  | None => raise AttributeError
  end.

Definition set_title (post : option Post) (t : string) : M Post :=
  match post with
  | Some p => ret (mkPost (id p) t (body p))
  | None => raise AttributeError
  end.

(** Edit an existing post. *)
Definition post_put_def (n : Z) : M Response :=
  data <- request_json ;;
  match validate repr data post_schema with
  | Some error =>
      ret (json_response (message (jsonschema.message error)) 422)
  | None =>
      post <- session.get n ;;
      b <- lift (getitem data "body") ;;
      b <- as_str b ;;
      post <- set_body post b ;;
      t <- lift (getitem data "title") ;;
      t <- as_str t ;;
      post <- set_title (Some post) t ;;
      session.add post ;;
      session.commit ;;
      (* Return a 202 Accepted, containing the post as JSON and with the
         Location header set to the location of the post *)
      ret (mkResponse (as_dictionary post) 202
                      [("Location", url_for_post_get (id post))]
                      "application/json")
  end.

Definition post_put (n : Z) : M Response :=
  decorators.accept "application/json"
    (decorators.require "application/json" (post_put_def n)).

End WithRepr.

End api.

(** ** The vocabulary of the properties. *)
Module spec.

Import py models flask database jsonschema.

(** The 406 answer of the Accept-guard. *)
Definition not_acceptable : Response :=
  mkResponse (JObject [("message", JString "Request must accept application/json data")])
             406 [] "application/json".

(** The 415 answer of the Require-guard. *)
Definition unsupported_media_type : Response :=
  mkResponse (JObject [("message", JString "Request must contain application/json data")])
             415 [] "application/json".

(** An Accept header none of whose patterns is compatible with
    [application/json]. *)
Definition no_json_pattern (header : string) : Prop :=
  forall p, In p (decorators.patterns header) ->
            p <> "application/json" /\ p <> "application/*" /\ p <> "*/*".

(** A request that gets through both guards. *)
Definition passes_accept (req : Request) : Prop :=
  decorators.acceptable "application/json" (accept_header req) = true.

Definition passes_require (req : Request) : Prop :=
  decorators.request_mimetype req = "application/json".

(** A session with no change waiting to be written. *)
Definition clean (s : Session) : Prop := pending s = [].

(** The body of a write request lacks [title] or [body], or has a value
    there that is not a string. *)
Definition malformed (members : list (string * json)) : Prop :=
  dict_get members "title" = None
  \/ dict_get members "body" = None
  \/ (exists v, dict_get members "title" = Some v /\ forall x, v <> JString x)
  \/ (exists v, dict_get members "body" = Some v /\ forall x, v <> JString x).

(** A message that names a constraint the body violates: a required key
    that is missing, or the value that has the wrong type. *)
Inductive identifies (repr : json -> string) (members : list (string * json))
  : string -> Prop :=
| names_missing (key : string) :
    In key ["title"; "body"] ->
    dict_get members key = None ->
    identifies repr members ("'" ++ key ++ "' is a required property")
| names_wrong_type (key : string) (v : json) :
    In key ["title"; "body"] ->
    dict_get members key = Some v ->
    (forall x, v <> JString x) ->
    identifies repr members (repr v ++ " is not of type 'string'").

(** The body carries the strings [t] and [b] under [title] and [body]. *)
Definition carries (members : list (string * json)) (t b : string) : Prop :=
  dict_get members "title" = Some (JString t)
  /\ dict_get members "body" = Some (JString b).


(** The filter of the list endpoint as the query string asks for it: the
    column must match a parameter that is present. *)
Definition like (param : option string) (column : string) : bool :=
  match param with
  | Some sub => contains column sub
  | None => true
  end.


(** The rows a query sees: those of the transaction once the session has
    written what was waiting. *)
Definition visible (s : Session) : list Post := table (fst (flush s)).


Definition wanted (req : Request) (p : Post) : bool :=
  like (args_get (args req) "title_like") (title p)
  && like (args_get (args req) "content_like") (body p).



(** Sample values for the worked instances. *)
Definition sample_repr (v : json) : string :=
  match v with
  | JNull => "None"
  | JBool true => "True"
  | JBool false => "False"
  | JInt n => text.str n
  | _ => "<value>"
  end.

Definition post_B : Post := mkPost 1 "Example Post B" "Still a test".

Definition one_post : Session := mkSession [post_B] [post_B] [] 2.




Definition empty_store : Session := mkSession [] [] [] 1.

Definition bells_and_whistles : Session :=
  let rows := [mkPost 1 "Post with bells" "hat hat hat";
               mkPost 2 "Post with whistles" "cat cat cat";
               mkPost 3 "Post with bells and whistles" "hat cat hat cat"] in
  mkSession rows rows [] 4.

Definition get_request (accept_value : string) (query : list (string * string))
  : Request :=
  mkRequest (Some accept_value) None query None.

Definition write_request (accept_value type_value : string) (document : json)
  : Request :=
  mkRequest (Some accept_value) (Some type_value) [] (Some document).

End spec.

(** ** tests.api_tests: how the tests fill the table. *)
Module tests.

Import py models flask database ctx.
Local Open Scope handler_scope.

(** [session.add_all(posts)]: [add] on each instance, in order. *)
Fixpoint add_all (posts : list (string * string)) : M unit :=
  match posts with
  | [] => ret tt
  | (t, b) :: rest => session.add_new t b ;; add_all rest
  end.

(** The setup the tests share: [session.add_all([...])] with new
    [models.Post(title=..., body=...)] instances, then [session.commit()]. *)
Definition add_all_and_commit (posts : list (string * string)) : M (list Post) :=
  add_all posts ;; session.commit.

End tests.

(** ** The vocabulary of the further properties. *)
Module interface.

Import py models flask database ctx.
Local Open Scope list_scope.

(** The four shapes an answer of the API can have: a list of records, one
    record, a message under a plain status, a record with the Location of
    its resource. *)
Inductive answer : Response -> Prop :=
| answer_list (rows : list Post) :
    answer (mkResponse (JArray (map as_dictionary rows)) 200 [] "application/json")
| answer_record (p : Post) :
    answer (mkResponse (as_dictionary p) 200 [] "application/json")
| answer_message (m : string) (code : Z) :
    In code [200; 404; 406; 415; 422] ->
    answer (mkResponse (JObject [("message", JString m)]) code [] "application/json")
| answer_located (p : Post) (code : Z) :
    In code [201; 202] ->
    answer (mkResponse (as_dictionary p) code
                       [("Location", ("/api/posts/" ++ text.str (id p))%string)]
                       "application/json").

(** The calls that change what the session holds. *)
Definition writes (c : call) : bool :=
  match c with
  | CAdd | CDelete | CCommit => true
  | CQuery | CGet _ => false
  end.

(** Rows in strictly ascending order of id. *)
Definition ascending (rows : list Post) : Prop :=
  StronglySorted (fun p q => id p < id q) rows.

(** A session as a request finds it when everything before it was
    committed: nothing waiting, the transaction showing the committed
    rows, ids ascending and all below the next generated one. *)
Definition consistent (s : Session) : Prop :=
  pending s = []
  /\ committed s = table s
  /\ ascending (table s)
  /\ (forall p, In p (table s) -> id p < serial s).

(** A query string that asks for no filter: each parameter is missing or
    empty. *)
Definition unfiltered (req : Request) : Prop :=
  api.truthy (args_get (args req) "title_like") = None
  /\ api.truthy (args_get (args req) "content_like") = None.

(** New posts with consecutive ids from [n] on. *)
Fixpoint numbered (n : Z) (posts : list (string * string)) : list Post :=
  match posts with
  | [] => []
  | (t, b) :: rest => mkPost n t b :: numbered (n + 1) rest
  end.

End interface.

(** ** Facts about the guards *)
Section Guards.

Import py flask database ctx decorators spec.

Lemma accept_rejects (func : M Response) (req : Request) (s : Session) :
  acceptable "application/json" (accept_header req) = false ->
  accept "application/json" func req s = (Ok not_acceptable, s, []).
Proof.
  intros H. unfold accept. rewrite H. reflexivity.
Qed.

Lemma accept_passes (func : M Response) (req : Request) (s : Session) :
  passes_accept req -> accept "application/json" func req s = func req s.
Proof.
  unfold passes_accept, accept. intros ->. reflexivity.
Qed.

Lemma require_rejects (func : M Response) (req : Request) (s : Session) :
  request_mimetype req <> "application/json" ->
  require "application/json" func req s = (Ok unsupported_media_type, s, []).
Proof.
  intros H. unfold require.
  destruct (String.eqb_spec (request_mimetype req) "application/json") as [E | _].
  - contradiction.
  - reflexivity.
Qed.

Lemma require_passes (func : M Response) (req : Request) (s : Session) :
  passes_require req -> require "application/json" func req s = func req s.
Proof.
  unfold passes_require, require. intros ->. reflexivity.
Qed.

Lemma no_json_pattern_unacceptable (req : Request) (h : string) :
  accept_header req = Some h ->
  no_json_pattern h ->
  acceptable "application/json" (accept_header req) = false.
Proof.
  intros -> Hno. unfold acceptable.
  destruct (existsb (matches "application/json") (patterns h)) eqn:E; [ | reflexivity ].
  apply existsb_exists in E. destruct E as [p [Hin Hm]].
  destruct (Hno p Hin) as [H1 [H2 H3]].
  unfold matches in Hm. simpl in Hm.
  apply orb_true_iff in Hm. destruct Hm as [Hm | Hm].
  - apply orb_true_iff in Hm. destruct Hm as [Hm | Hm];
      apply String.eqb_eq in Hm; contradiction.
  - apply String.eqb_eq in Hm. contradiction.
Qed.

End Guards.


(** ** Facts about the rows and the session *)
Section Store.

Import models database spec.
Local Open Scope list_scope.

Lemma flush_clean (s : Session) : clean s -> flush s = (s, []).
Proof.
  destruct s as [c t p n]. unfold clean. simpl. intros ->. reflexivity.
Qed.

Lemma find_some (rows : list Post) (n : Z) (p : Post) :
  find rows n = Some p -> id p = n /\ In p rows.
Proof.
  induction rows as [ | q rest IH]; simpl.
  - discriminate.
  - destruct (Z.eqb_spec (id q) n) as [E | E].
    + intros [= <-]. auto.
    + intros H. destruct (IH H). auto.
Qed.

Lemma find_none (rows : list Post) (n : Z) :
  (forall p, In p rows -> id p <> n) -> find rows n = None.
Proof.
  induction rows as [ | q rest IH]; simpl; intros H.
  - reflexivity.
  - destruct (Z.eqb_spec (id q) n) as [E | E].
    + exfalso. apply (H q); auto.
    + apply IH. intros p Hp. apply H. auto.
Qed.





Lemma written_inserts (changes : list change) :
  forall (rows : list Post) (next : Z) (ins : list Post),
    List.length (snd (fold_left write changes (rows, next, ins)))
    = (List.length ins + session.count_inserts changes)%nat.
Proof.
  unfold session.count_inserts.
  induction changes as [ | c rest IH]; intros rows next ins; simpl.
  - lia.
  - destruct c as [t b | p | p]; simpl; rewrite IH; simpl;
      rewrite ?length_app; simpl; lia.
Qed.

(** The instance handed to [add] is among those a commit inserts, at its
    rank, with the title and the body it was built with. *)
Lemma added_instance_is_inserted (s : Session) (t b : string) :
  exists n : Z,
    nth_error (snd (flush (mkSession (committed s) (table s)
                                     (pending s ++ [Insert t b]) (serial s))))
              (session.count_inserts (pending s))
    = Some (mkPost n t b).
Proof.
  unfold flush. simpl. rewrite fold_left_app. simpl.
  pose proof (written_inserts (pending s) (table s) (serial s) []) as Hlen.
  destruct (fold_left write (pending s) (table s, serial s, [])) as [[rows next] ins].
  simpl in *. exists next. rewrite <- Hlen.
  rewrite nth_error_app2, Nat.sub_diag by lia. reflexivity.
Qed.

(** When every id of the table is below the next generated one, the id of a
    created post is new. *)
Lemma generated_id_is_new (s : Session) (t b : string) :
  (forall p, In p (table s) -> id p < serial s) ->
  find (table s ++ [mkPost (serial s) t b]) (serial s) = Some (mkPost (serial s) t b).
Proof.
  intros Hlt. induction (table s) as [ | q rest IH]; simpl.
  - rewrite Z.eqb_refl. reflexivity.
  - destruct (Z.eqb_spec (id q) (serial s)) as [E | E].
    + specialize (Hlt q (or_introl eq_refl)). lia.
    + apply IH. intros p Hp. apply Hlt. right. exact Hp.
Qed.

End Store.

(** ** Facts about substrings *)
Section Text.

Import spec.



Lemma contains_empty (s : string) : text.contains s "" = true.
Proof.
  destruct s; reflexivity.
Qed.

Lemma like_skip (rest s : string) :
  sql.like (String "%" rest) s
  = sql.like rest s
    || match s with
       | EmptyString => false
       | String _ s' => sql.like (String "%" rest) s'
       end.
Proof.
  destruct s; reflexivity.
Qed.

Lemma like_percent (s : string) : sql.like "%" s = true.
Proof.
  induction s as [ | a s IH].
  - reflexivity.
  - rewrite like_skip. rewrite IH. apply orb_true_r.
Qed.



(** The empty parameter matches every column. *)
Lemma contains_anything (column : string) : models.contains column "" = true.
Proof.
  unfold models.contains. change ("%" ++ "" ++ "%") with (String "%" "%").
  rewrite like_skip, like_percent. reflexivity.
Qed.


End Text.


(** ** Facts about the validation of a body *)
Section Validation.

Import py flask database ctx jsonschema spec.

Variable repr : json -> string.

Lemma validate_carries (members : list (string * json)) (t b : string) :
  carries members t b ->
  validate repr (JObject members) api.post_schema = None.
Proof.
  intros [Ht Hb]. unfold validate, iter_errors, api.post_schema. simpl.
  unfold has_key. rewrite Ht, Hb. reflexivity.
Qed.

Ltac name_violation Ht Hb :=
  eexists; split; [ reflexivity | ];
  first
    [ apply (names_missing repr _ "title"); [ simpl; auto | exact Ht ]
    | apply (names_missing repr _ "body"); [ simpl; auto | exact Hb ]
    | apply (names_wrong_type repr _ "title" _);
      [ simpl; auto | exact Ht | intros x; discriminate ]
    | apply (names_wrong_type repr _ "body" _);
      [ simpl; auto | exact Hb | intros x; discriminate ] ].

Lemma validate_malformed (members : list (string * json)) :
  malformed members ->
  exists e, validate repr (JObject members) api.post_schema = Some e
            /\ identifies repr members (message e).
Proof.
  intros H. unfold validate, iter_errors, api.post_schema. simpl. unfold has_key.
  destruct (dict_get members "title") as [vt | ] eqn:Ht;
    destruct (dict_get members "body") as [vb | ] eqn:Hb;
    try destruct vt; try destruct vb; simpl;
    try (name_violation Ht Hb).
  exfalso. destruct H as [H | [H | [[v [H1 H2]] | [v [H1 H2]]]]].
  - congruence.
  - congruence.
  - rewrite Ht in H1. injection H1 as <-. eapply H2. reflexivity.
  - rewrite Hb in H1. injection H1 as <-. eapply H2. reflexivity.
Qed.

Lemma posts_post_def_rejects (req : Request) (s : Session) (data : json)
      (e : ValidationError) :
  json_body req = Some data ->
  validate repr data api.post_schema = Some e ->
  api.posts_post_def repr req s
  = (Ok (api.json_response (api.message (message e)) 422), s, []).
Proof.
  intros Hd Hv. unfold api.posts_post_def, api.request_json, bind, request.
  rewrite Hd. unfold ret. rewrite Hv. reflexivity.
Qed.

Lemma post_put_def_rejects (n : Z) (req : Request) (s : Session) (data : json)
      (e : ValidationError) :
  json_body req = Some data ->
  validate repr data api.post_schema = Some e ->
  api.post_put_def repr n req s
  = (Ok (api.json_response (api.message (message e)) 422), s, []).
Proof.
  intros Hd Hv. unfold api.post_put_def, api.request_json, bind, request.
  rewrite Hd. unfold ret. rewrite Hv. reflexivity.
Qed.

End Validation.


(** ** How the undecorated endpoints run *)
Section Endpoints.

Import py models flask database ctx jsonschema spec.
Local Open Scope list_scope.

#[local] Arguments text.str : simpl never.

Variable repr : json -> string.

#[local] Arguments contains : simpl never.

Lemma like_truthy (param : option string) (column : string) :
  like (api.truthy param) column = like param column.
Proof.
  destruct param as [[ | a sub] | ]; simpl; try reflexivity.
  symmetry. apply contains_anything.
Qed.

(** The list handler on any session: the session writes what was waiting,
    then the rows are filtered and ordered. *)
Lemma posts_get_def_visible (req : Request) (s : Session) :
  api.posts_get_def req s
  = (Ok (api.json_response
           (JArray (map as_dictionary (order_by_id (filter (wanted req) (visible s)))))
           200),
     fst (flush s), [CQuery]).
Proof.
  unfold api.posts_get_def, api.request_args_get, bind, request, ret, visible.
  unfold session.all. simpl.
  assert (E : forall q rows,
             session.select (session.order_by_id q) rows
             = order_by_id (filter (fun p => forallb (fun c => c p) (session.criteria q))
                                   rows)) by reflexivity.
  rewrite E. clear E.
  match goal with
  | |- context [filter ?f ?rows] =>
      replace (filter f rows) with (filter (wanted req) rows);
      [ reflexivity | ]
  end.
  apply filter_ext. intros p. unfold wanted.
  rewrite <- (like_truthy (args_get (args req) "title_like")).
  rewrite <- (like_truthy (args_get (args req) "content_like")).
  destruct (api.truthy (args_get (args req) "title_like"));
    destruct (api.truthy (args_get (args req) "content_like"));
    simpl; rewrite ?andb_true_r; reflexivity.
Qed.

Lemma posts_get_def_run (req : Request) (s : Session) :
  clean s ->
  api.posts_get_def req s
  = (Ok (api.json_response
           (JArray (map as_dictionary (order_by_id (filter (wanted req) (table s)))))
           200),
     s, [CQuery]).
Proof.
  intros Hs. rewrite posts_get_def_visible. unfold visible.
  rewrite (flush_clean s Hs). reflexivity.
Qed.

Lemma post_get_def_missing (n : Z) (req : Request) (s : Session) :
  clean s ->
  find (table s) n = None ->
  api.post_get_def n req s
  = (Ok (api.json_response
           (api.message ("Could not find post with id " ++ text.str n)%string) 404),
     s, [CGet n]).
Proof.
  intros Hs Hn. unfold api.post_get_def, bind, session.get.
  rewrite Hs, (flush_clean s Hs). simpl. rewrite Hn. reflexivity.
Qed.

Lemma post_delete_def_missing (n : Z) (req : Request) (s : Session) :
  clean s ->
  find (table s) n = None ->
  api.post_delete_def n req s
  = (Ok (api.json_response
           (api.message ("Could not find post with id " ++ text.str n)%string) 404),
     s, [CGet n]).
Proof.
  intros Hs Hn. unfold api.post_delete_def, bind, session.get.
  rewrite Hs, (flush_clean s Hs). simpl. rewrite Hn. reflexivity.
Qed.

Lemma post_delete_def_found (n : Z) (req : Request) (s : Session) (p : Post) :
  clean s ->
  find (table s) n = Some p ->
  api.post_delete_def n req s
  = (Ok (api.json_response
           (api.message ("Deleted post with id " ++ text.str n)%string) 200),
     mkSession (committed s) (table s) [Remove p] (serial s),
     [CGet n; CDelete]).
Proof.
  intros Hs Hn. unfold api.post_delete_def, bind, session.get.
  rewrite Hs, (flush_clean s Hs). simpl. rewrite Hn. simpl. rewrite Hs. reflexivity.
Qed.

Lemma posts_post_def_creates (req : Request) (s : Session)
      (members : list (string * json)) (t b : string) :
  json_body req = Some (JObject members) ->
  carries members t b ->
  clean s ->
  api.posts_post_def repr req s
  = (Ok (mkResponse (as_dictionary (mkPost (serial s) t b)) 201
                    [("Location", url_for_post_get (serial s))]
                    "application/json"),
     mkSession (table s ++ [mkPost (serial s) t b])
               (table s ++ [mkPost (serial s) t b]) [] (serial s + 1),
     [CAdd; CCommit]).
Proof.
  intros Hd Hc Hs. unfold api.posts_post_def, api.request_json, bind, request.
  rewrite Hd. unfold ret at 1. rewrite (validate_carries repr members t b Hc).
  destruct Hc as [Ht Hb]. destruct s as [c rows pd next].
  unfold clean in Hs. simpl in Hs. subst pd.
  simpl. rewrite Ht. simpl. rewrite Hb. reflexivity.
Qed.

Lemma post_put_def_updates (n : Z) (req : Request) (s : Session)
      (members : list (string * json)) (t b : string) (p : Post) :
  json_body req = Some (JObject members) ->
  carries members t b ->
  clean s ->
  find (table s) n = Some p ->
  api.post_put_def repr n req s
  = (Ok (mkResponse (as_dictionary (mkPost n t b)) 202
                    [("Location", url_for_post_get n)]
                    "application/json"),
     mkSession (replace (mkPost n t b) (table s))
               (replace (mkPost n t b) (table s)) [] (serial s),
     [CGet n; CAdd; CCommit]).
Proof.
  intros Hd Hc Hs Hp. unfold api.post_put_def, api.request_json, bind, request.
  rewrite Hd. unfold ret at 1. rewrite (validate_carries repr members t b Hc).
  destruct Hc as [Ht Hb]. destruct (find_some _ _ _ Hp) as [Hid _].
  destruct s as [c rows pd next].
  unfold clean in Hs. simpl in Hs. subst pd. simpl in Hp.
  simpl. rewrite Hp. simpl. rewrite Hb. simpl. rewrite Ht. simpl.
  rewrite Hid. reflexivity.
Qed.

Lemma post_put_def_missing (n : Z) (req : Request) (s : Session)
      (members : list (string * json)) (t b : string) :
  json_body req = Some (JObject members) ->
  carries members t b ->
  clean s ->
  find (table s) n = None ->
  api.post_put_def repr n req s = (Raise AttributeError, s, [CGet n]).
Proof.
  intros Hd Hc Hs Hp. unfold api.post_put_def, api.request_json, bind, request.
  rewrite Hd. unfold ret at 1. rewrite (validate_carries repr members t b Hc).
  destruct Hc as [Ht Hb]. destruct s as [c rows pd next].
  unfold clean in Hs. simpl in Hs. subst pd. simpl in Hp.
  simpl. rewrite Hp. simpl. rewrite Hb. reflexivity.
Qed.




End Endpoints.


(** ** The properties of the endpoints *)
Section Claims.

Import py models flask database ctx decorators spec.
Local Open Scope list_scope.

#[local] Arguments text.str : simpl never.

(** C2: a request whose Accept header has no pattern compatible with
    [application/json] (no [application/json], no [application/*], no
    [*/*]) is answered 406 with content type [application/json] and the
    message "Request must accept application/json data" by each of the
    five endpoints; the session is untouched and the wrapped function is
    never called, whatever it is. *)
Theorem unacceptable_request_is_refused :
  forall (repr : json -> string) (req : Request) (s : Session) (h : string) (n : Z),
    accept_header req = Some h ->
    no_json_pattern h ->
    (forall func : M Response,
        accept "application/json" func req s = (Ok not_acceptable, s, []))
    /\ api.posts_get req s = (Ok not_acceptable, s, [])
    /\ api.post_get n req s = (Ok not_acceptable, s, [])
    /\ api.post_delete n req s = (Ok not_acceptable, s, [])
    /\ api.posts_post repr req s = (Ok not_acceptable, s, [])
    /\ api.post_put repr n req s = (Ok not_acceptable, s, []).
Proof.
  intros repr req s h n Hh Hno.
  pose proof (no_json_pattern_unacceptable req h Hh Hno) as Hrej.
  repeat split; intros; apply accept_rejects; exact Hrej.
Qed.

(** C3, as amended: a POST or PUT request that passes the Accept-guard and
    whose Content-Type, parameters dropped, is not exactly
    [application/json] is answered 415 with content type
    [application/json] and the message "Request must contain
    application/json data"; the Require-guard answers so without calling
    the function it wraps, so neither validation nor the session runs. *)
Theorem wrong_content_type_is_unsupported :
  forall (repr : json -> string) (req : Request) (s : Session) (n : Z),
    passes_accept req ->
    request_mimetype req <> "application/json"%string ->
    (forall func : M Response,
        require "application/json" func req s = (Ok unsupported_media_type, s, []))
    /\ api.posts_post repr req s = (Ok unsupported_media_type, s, [])
    /\ api.post_put repr n req s = (Ok unsupported_media_type, s, []).
Proof.
  intros repr req s n Ha Ht. repeat split.
  - intros func. apply require_rejects. exact Ht.
  - unfold api.posts_post. rewrite (accept_passes _ _ _ Ha).
    apply require_rejects. exact Ht.
  - unfold api.post_put. rewrite (accept_passes _ _ _ Ha).
    apply require_rejects. exact Ht.
Qed.

(** C4: a POST or PUT request that fails both guards gets the 406 of the
    Accept-guard, not the 415 of the Require-guard. *)
Theorem accept_guard_comes_first :
  forall (repr : json -> string) (req : Request) (s : Session) (h : string) (n : Z),
    accept_header req = Some h ->
    no_json_pattern h ->
    request_mimetype req <> "application/json"%string ->
    api.posts_post repr req s = (Ok not_acceptable, s, [])
    /\ api.post_put repr n req s = (Ok not_acceptable, s, [])
    /\ status not_acceptable = 406
    /\ status not_acceptable <> status unsupported_media_type.
Proof.
  intros repr req s h n Hh Hno _.
  pose proof (no_json_pattern_unacceptable req h Hh Hno) as Hrej.
  repeat split.
  - apply accept_rejects. exact Hrej.
  - apply accept_rejects. exact Hrej.
  - discriminate.
Qed.

(** C1, as amended: a POST or PUT request that passes both guards and whose
    decoded body is an object lacking [title] or [body], or holding a
    value that is not a string there, is answered 422 with a body
    [{"message": m}] where [m] names a violated constraint; the session
    is unchanged and no call at all is made on it. *)
Theorem malformed_body_is_unprocessable :
  forall (repr : json -> string) (req : Request) (s : Session)
         (members : list (string * json)) (n : Z),
    passes_accept req ->
    passes_require req ->
    json_body req = Some (JObject members) ->
    malformed members ->
    exists m : string,
      identifies repr members m
      /\ api.posts_post repr req s
         = (Ok (mkResponse (JObject [("message", JString m)]) 422 [] "application/json"),
            s, [])
      /\ api.post_put repr n req s
         = (Ok (mkResponse (JObject [("message", JString m)]) 422 [] "application/json"),
            s, []).
Proof.
  intros repr req s members n Ha Hr Hd Hm.
  destruct (validate_malformed repr members Hm) as [e [Hv Hid]].
  exists (jsonschema.message e). repeat split.
  - exact Hid.
  - unfold api.posts_post.
    rewrite (accept_passes _ _ _ Ha), (require_passes _ _ _ Hr).
    apply (posts_post_def_rejects repr req s _ e Hd Hv).
  - unfold api.post_put.
    rewrite (accept_passes _ _ _ Ha), (require_passes _ _ _ Hr).
    apply (post_put_def_rejects repr n req s _ e Hd Hv).
Qed.

(** C5: on a session with nothing waiting to be written, for an id no row
    of the table has, GET and DELETE of that id (Accept-guard passed) are
    answered 404 with content type [application/json] and the message
    "Could not find post with id <id>"; the session is unchanged. *)
Theorem unknown_id_is_not_found :
  forall (req : Request) (s : Session) (n : Z),
    passes_accept req ->
    clean s ->
    (forall p, In p (table s) -> id p <> n) ->
    api.post_get n req s
    = (Ok (mkResponse
             (JObject [("message", JString ("Could not find post with id " ++ text.str n))])
             404 [] "application/json"),
       s, [CGet n])
    /\ api.post_delete n req s
       = (Ok (mkResponse
                (JObject [("message", JString ("Could not find post with id " ++ text.str n))])
                404 [] "application/json"),
          s, [CGet n]).
Proof.
  intros req s n Ha Hs Hn. apply find_none in Hn. split.
  - unfold api.post_get. rewrite (accept_passes _ _ _ Ha).
    apply post_get_def_missing; assumption.
  - unfold api.post_delete. rewrite (accept_passes _ _ _ Ha).
    apply post_delete_def_missing; assumption.
Qed.

(** C6, what the code does: on a session with nothing waiting to be
    written, DELETE of an id the table has (Accept-guard passed) is
    answered 200 with the message "Deleted post with id <id>", but the
    deletion is only registered: no commit is called, the committed rows
    and the rows of the transaction still hold the post, and a GET of
    the same id that follows is answered 200 with the post. *)
Theorem delete_is_left_uncommitted :
  forall (req : Request) (s : Session) (n : Z) (p : Post),
    passes_accept req ->
    clean s ->
    find (table s) n = Some p ->
    let s' := mkSession (committed s) (table s) [Remove p] (serial s) in
    api.post_delete n req s
    = (Ok (mkResponse
             (JObject [("message", JString ("Deleted post with id " ++ text.str n))])
             200 [] "application/json"),
       s', [CGet n; CDelete])
    /\ ~ In CCommit [CGet n; CDelete]
    /\ In p (table s')
    /\ committed s' = committed s
    /\ api.post_get n req s'
       = (Ok (mkResponse (as_dictionary p) 200 [] "application/json"), s', [CGet n]).
Proof.
  intros req s n p Ha Hs Hp s'. destruct (find_some _ _ _ Hp) as [Hid Hin].
  repeat split.
  - unfold api.post_delete. rewrite (accept_passes _ _ _ Ha).
    apply post_delete_def_found; assumption.
  - simpl. intros [H | [H | []]]; discriminate.
  - exact Hin.
  - unfold api.post_get. rewrite (accept_passes _ _ _ Ha).
    unfold api.post_get_def, bind, session.get. simpl.
    rewrite Hid, Z.eqb_refl. reflexivity.
Qed.


(** C8: on a session with nothing waiting to be written, a POST /api/posts
    request that passes both guards and carries the strings [t] and [b]
    under [title] and [body] adds the post [(n, t, b)], [n] the id the
    store generates, and commits it; the answer is 201 with the Location
    header [/api/posts/n] and the body [{"id": n, "title": t, "body": b}]. *)
Theorem valid_post_is_created :
  forall (repr : json -> string) (req : Request) (s : Session)
         (members : list (string * json)) (t b : string),
    passes_accept req ->
    passes_require req ->
    json_body req = Some (JObject members) ->
    carries members t b ->
    clean s ->
    let n := serial s in
    let rows := table s ++ [mkPost n t b] in
    api.posts_post repr req s
    = (Ok (mkResponse
             (JObject [("id", JInt n); ("title", JString t); ("body", JString b)])
             201
             [("Location", ("/api/posts/" ++ text.str n)%string)]
             "application/json"),
       mkSession rows rows [] (n + 1),
       [CAdd; CCommit]).
Proof.
  intros repr req s members t b Ha Hr Hd Hc Hs n rows.
  unfold api.posts_post.
  rewrite (accept_passes _ _ _ Ha), (require_passes _ _ _ Hr).
  apply (posts_post_def_creates repr req s members t b Hd Hc Hs).
Qed.


(** C10: on a session with nothing waiting to be written, a PUT
    /api/posts/<id> request that passes both guards and validation, for
    an id no row of the table has, is not answered at all, hence not with
    a 404: the lookup gives [None], setting an attribute on it raises,
    and the exception leaves the endpoint before anything is added or
    committed. *)
Theorem put_of_unknown_id_faults :
  forall (repr : json -> string) (req : Request) (s : Session)
         (members : list (string * json)) (t b : string) (n : Z),
    passes_accept req ->
    passes_require req ->
    json_body req = Some (JObject members) ->
    carries members t b ->
    clean s ->
    (forall p, In p (table s) -> id p <> n) ->
    api.post_put repr n req s = (Raise AttributeError, s, [CGet n])
    /\ (forall (r : Response) (s' : Session) (calls : list call),
          api.post_put repr n req s <> (Ok r, s', calls)).
Proof.
  intros repr req s members t b n Ha Hr Hd Hc Hs Hn.
  apply find_none in Hn.
  assert (E : api.post_put repr n req s = (Raise AttributeError, s, [CGet n])).
  { unfold api.post_put.
    rewrite (accept_passes _ _ _ Ha), (require_passes _ _ _ Hr).
    apply (post_put_def_missing repr n req s members t b Hd Hc Hs Hn). }
  split; [ exact E | ].
  intros r s' calls. rewrite E. discriminate.
Qed.

End Claims.

(** ** Worked instances *)
Section Instances.

Import py models flask database ctx decorators spec.
Local Open Scope list_scope.

Lemma xml_has_no_json_pattern : no_json_pattern "application/xml".
Proof.
  intros p Hp. vm_compute in Hp. destruct Hp as [<- | []].
  repeat split; discriminate.
Qed.

Lemma html_has_no_json_pattern : no_json_pattern "text/html".
Proof.
  intros p Hp. vm_compute in Hp. destruct Hp as [<- | []].
  repeat split; discriminate.
Qed.

(** The request of [test_unsupported_accept_header]. *)
Lemma unacceptable_request_witness :
  accept_header (get_request "application/xml" []) = Some "application/xml"%string
  /\ no_json_pattern "application/xml"
  /\ api.posts_get (get_request "application/xml" []) one_post
     = (Ok not_acceptable, one_post, []).
Proof.
  split; [ reflexivity | split; [ exact xml_has_no_json_pattern | ] ].
  exact (proj1 (proj2 (unacceptable_request_is_refused
                         sample_repr (get_request "application/xml" []) one_post
                         "application/xml" 1 eq_refl xml_has_no_json_pattern))).
Defined.

Lemma plain_text_is_not_json :
  request_mimetype (write_request "application/json" "text/plain" (JObject []))
  <> "application/json"%string.
Proof.
  vm_compute. discriminate.
Qed.

Lemma wrong_content_type_witness :
  passes_accept (write_request "application/json" "text/plain" (JObject []))
  /\ request_mimetype (write_request "application/json" "text/plain" (JObject []))
     <> "application/json"%string
  /\ api.posts_post sample_repr
                    (write_request "application/json" "text/plain" (JObject []))
                    one_post
     = (Ok unsupported_media_type, one_post, []).
Proof.
  split; [ reflexivity | split; [ exact plain_text_is_not_json | ] ].
  exact (proj1 (proj2 (wrong_content_type_is_unsupported
                         sample_repr
                         (write_request "application/json" "text/plain" (JObject []))
                         one_post 1 eq_refl plain_text_is_not_json))).
Defined.

(** C3, as stated, fails: a POST whose Content-Type is [text/plain] and
    whose Accept header is [text/html] is answered 406, not 415. *)
Lemma wrong_content_type_behind_the_accept_guard :
  request_mimetype (write_request "text/html" "text/plain" (JObject []))
  <> "application/json"%string
  /\ exists r : Response,
       api.posts_post sample_repr
                      (write_request "text/html" "text/plain" (JObject []))
                      one_post
       = (Ok r, one_post, [])
       /\ status r = 406
       /\ status r <> 415.
Proof.
  split.
  - vm_compute. discriminate.
  - exists not_acceptable. repeat split. discriminate.
Qed.

Lemma accept_guard_comes_first_witness :
  accept_header (write_request "text/html" "text/plain" (JObject [])) = Some "text/html"%string
  /\ no_json_pattern "text/html"
  /\ request_mimetype (write_request "text/html" "text/plain" (JObject []))
     <> "application/json"%string
  /\ api.post_put sample_repr 1 (write_request "text/html" "text/plain" (JObject []))
                  one_post
     = (Ok not_acceptable, one_post, []).
Proof.
  assert (Ht : request_mimetype (write_request "text/html" "text/plain" (JObject []))
               <> "application/json"%string) by (vm_compute; discriminate).
  split; [ reflexivity | split; [ exact html_has_no_json_pattern | split; [ exact Ht | ] ] ].
  exact (proj1 (proj2 (accept_guard_comes_first
                         sample_repr
                         (write_request "text/html" "text/plain" (JObject []))
                         one_post "text/html" 1 eq_refl html_has_no_json_pattern Ht))).
Defined.

Lemma title_only_is_malformed : malformed [("title", JInt 3)].
Proof.
  right. left. reflexivity.
Qed.

Lemma malformed_body_witness :
  passes_accept (write_request "application/json" "application/json; charset=utf-8"
                               (JObject [("title", JInt 3)]))
  /\ passes_require (write_request "application/json" "application/json; charset=utf-8"
                                   (JObject [("title", JInt 3)]))
  /\ malformed [("title", JInt 3)]
  /\ exists m : string,
       identifies sample_repr [("title", JInt 3)] m
       /\ api.posts_post sample_repr
                         (write_request "application/json"
                                        "application/json; charset=utf-8"
                                        (JObject [("title", JInt 3)]))
                         one_post
          = (Ok (mkResponse (JObject [("message", JString m)]) 422 [] "application/json"),
             one_post, [])
       /\ api.post_put sample_repr 1
                       (write_request "application/json"
                                      "application/json; charset=utf-8"
                                      (JObject [("title", JInt 3)]))
                       one_post
          = (Ok (mkResponse (JObject [("message", JString m)]) 422 [] "application/json"),
             one_post, []).
Proof.
  split; [ reflexivity | split; [ reflexivity | split; [ exact title_only_is_malformed | ] ] ].
  exact (malformed_body_is_unprocessable
           sample_repr
           (write_request "application/json" "application/json; charset=utf-8"
                          (JObject [("title", JInt 3)]))
           one_post [("title", JInt 3)] 1 eq_refl eq_refl eq_refl
           title_only_is_malformed).
Defined.

(** C1, as stated, fails: a POST whose body lacks both keys and whose
    Accept header is [text/html] is answered 406, not 422. *)
Lemma malformed_body_behind_the_accept_guard :
  json_body (write_request "text/html" "application/json" (JObject []))
  = Some (JObject [])
  /\ malformed []
  /\ exists r : Response,
       api.posts_post sample_repr
                      (write_request "text/html" "application/json" (JObject []))
                      one_post
       = (Ok r, one_post, [])
       /\ status r = 406
       /\ status r <> 422.
Proof.
  split; [ reflexivity | split ].
  - left. reflexivity.
  - exists not_acceptable. repeat split. discriminate.
Qed.

Lemma empty_store_has_no_post (n : Z) :
  forall p, In p (table empty_store) -> id p <> n.
Proof.
  intros p [].
Qed.

(** The requests of [test_get_non_existent_post] and
    [test_delete_nonexistent_post]. *)
Lemma unknown_id_witness :
  passes_accept (get_request "application/json" [])
  /\ clean empty_store
  /\ api.post_get 1 (get_request "application/json" []) empty_store
     = (Ok (mkResponse
              (JObject [("message", JString "Could not find post with id 1")])
              404 [] "application/json"),
        empty_store, [CGet 1])
  /\ api.post_delete 1 (get_request "application/json" []) empty_store
     = (Ok (mkResponse
              (JObject [("message", JString "Could not find post with id 1")])
              404 [] "application/json"),
        empty_store, [CGet 1]).
Proof.
  split; [ reflexivity | split; [ reflexivity | ] ].
  exact (unknown_id_is_not_found (get_request "application/json" []) empty_store 1
                                 eq_refl eq_refl (empty_store_has_no_post 1)).
Defined.

(** The requests of [test_delete_post], followed by a GET of the same id:
    the post is still served. *)
Lemma delete_is_left_uncommitted_witness :
  passes_accept (get_request "application/json" [])
  /\ clean one_post
  /\ find (table one_post) 1 = Some post_B
  /\ api.post_delete 1 (get_request "application/json" []) one_post
     = (Ok (mkResponse (JObject [("message", JString "Deleted post with id 1")])
                       200 [] "application/json"),
        mkSession [post_B] [post_B] [Remove post_B] 2,
        [CGet 1; CDelete])
  /\ committed (mkSession [post_B] [post_B] [Remove post_B] 2) = [post_B]
  /\ api.post_get 1 (get_request "application/json" [])
                  (mkSession [post_B] [post_B] [Remove post_B] 2)
     = (Ok (mkResponse
              (JObject [("id", JInt 1); ("title", JString "Example Post B");
                        ("body", JString "Still a test")])
              200 [] "application/json"),
        mkSession [post_B] [post_B] [Remove post_B] 2,
        [CGet 1]).
Proof.
  split; [ reflexivity | split; [ reflexivity | split; [ reflexivity | ] ] ].
  pose proof (delete_is_left_uncommitted (get_request "application/json" [])
                                         one_post 1 post_B eq_refl eq_refl eq_refl)
    as [Hdel [_ [_ [Hcommitted Hget]]]].
  split; [ exact Hdel | split; [ exact Hcommitted | exact Hget ] ].
Defined.



(** A POST of [{"title": "A", "body": "B"}] on the empty table. *)
Lemma valid_post_witness :
  passes_accept (write_request "application/json" "application/json"
                               (JObject [("title", JString "A"); ("body", JString "B")]))
  /\ passes_require (write_request "application/json" "application/json"
                                   (JObject [("title", JString "A"); ("body", JString "B")]))
  /\ carries [("title", JString "A"); ("body", JString "B")] "A" "B"
  /\ clean empty_store
  /\ api.posts_post sample_repr
                    (write_request "application/json" "application/json"
                                   (JObject [("title", JString "A"); ("body", JString "B")]))
                    empty_store
     = (Ok (mkResponse
              (JObject [("id", JInt 1); ("title", JString "A"); ("body", JString "B")])
              201 [("Location", "/api/posts/1"%string)] "application/json"),
        mkSession [mkPost 1 "A" "B"] [mkPost 1 "A" "B"] [] 2,
        [CAdd; CCommit]).
Proof.
  assert (Hc : carries [("title", JString "A"); ("body", JString "B")] "A" "B")
    by (split; reflexivity).
  split; [ reflexivity | split; [ reflexivity | split; [ exact Hc | split; [ reflexivity | ] ] ] ].
  exact (valid_post_is_created
           sample_repr
           (write_request "application/json" "application/json"
                          (JObject [("title", JString "A"); ("body", JString "B")]))
           empty_store [("title", JString "A"); ("body", JString "B")] "A" "B"
           eq_refl eq_refl eq_refl Hc eq_refl).
Defined.




(** The same PUT on the empty table. *)
Lemma put_of_unknown_id_witness :
  passes_accept (write_request "application/json" "application/json"
                               (JObject [("title", JString "A"); ("body", JString "B")]))
  /\ passes_require (write_request "application/json" "application/json"
                                   (JObject [("title", JString "A"); ("body", JString "B")]))
  /\ carries [("title", JString "A"); ("body", JString "B")] "A" "B"
  /\ clean empty_store
  /\ api.post_put sample_repr 1
                  (write_request "application/json" "application/json"
                                 (JObject [("title", JString "A"); ("body", JString "B")]))
                  empty_store
     = (Raise AttributeError, empty_store, [CGet 1]).
Proof.
  assert (Hc : carries [("title", JString "A"); ("body", JString "B")] "A" "B")
    by (split; reflexivity).
  split; [ reflexivity | split; [ reflexivity | split; [ exact Hc | split; [ reflexivity | ] ] ] ].
  exact (proj1 (put_of_unknown_id_faults
                  sample_repr
                  (write_request "application/json" "application/json"
                                 (JObject [("title", JString "A"); ("body", JString "B")]))
                  empty_store [("title", JString "A"); ("body", JString "B")] "A" "B"
                  1 eq_refl eq_refl eq_refl Hc eq_refl (empty_store_has_no_post 1))).
Defined.

(** *** The scenarios of the test suite *)

(** [test_get_empty_posts]. *)
Example get_empty_posts :
  api.posts_get (get_request "application/json" []) empty_store
  = (Ok (mkResponse (JArray []) 200 [] "application/json"), empty_store, [CQuery]).
Proof. reflexivity. Qed.

(** [test_get_posts_with_title]. *)
Example get_posts_with_title :
  api.posts_get (get_request "application/json" [("title_like", "whistles")])
                bells_and_whistles
  = (Ok (mkResponse
           (JArray [as_dictionary (mkPost 2 "Post with whistles" "cat cat cat");
                    as_dictionary (mkPost 3 "Post with bells and whistles"
                                          "hat cat hat cat")])
           200 [] "application/json"),
     bells_and_whistles, [CQuery]).
Proof. reflexivity. Qed.

(** [test_get_posts_with_content]. *)
Example get_posts_with_content :
  api.posts_get (get_request "application/json" [("content_like", "hat")])
                bells_and_whistles
  = (Ok (mkResponse
           (JArray [as_dictionary (mkPost 1 "Post with bells" "hat hat hat");
                    as_dictionary (mkPost 3 "Post with bells and whistles"
                                          "hat cat hat cat")])
           200 [] "application/json"),
     bells_and_whistles, [CQuery]).
Proof. reflexivity. Qed.

(** The filters compare characters exactly. *)
Example filter_is_case_sensitive :
  api.posts_get (get_request "application/json" [("content_like", "Hat")])
                bells_and_whistles
  = (Ok (mkResponse (JArray []) 200 [] "application/json"),
     bells_and_whistles, [CQuery]).
Proof. reflexivity. Qed.

(** [test_get_post]. *)
Example get_post :
  api.post_get 1 (get_request "application/json" []) one_post
  = (Ok (mkResponse (as_dictionary post_B) 200 [] "application/json"),
     one_post, [CGet 1]).
Proof. reflexivity. Qed.

(** A document that is not an object passes the schema, which has no
    ["type"] of its own, and the endpoint faults on [data["title"]]. *)
Example array_body_faults :
  api.posts_post sample_repr
                 (write_request "application/json" "application/json" (JArray []))
                 one_post
  = (Raise TypeError, one_post, []).
Proof. reflexivity. Qed.

(** A body that does not decode leaves [request.json] with a 400. *)
Example undecodable_body_faults :
  api.posts_post sample_repr
                 (mkRequest (Some "application/json") (Some "application/json") [] None)
                 one_post
  = (Raise BadRequest, one_post, []).
Proof. reflexivity. Qed.

(** A list request flushes a deletion left by an earlier DELETE, without
    committing it. *)
Example list_after_delete :
  api.posts_get (get_request "application/json" [])
                (mkSession [post_B] [post_B] [Remove post_B] 2)
  = (Ok (mkResponse (JArray []) 200 [] "application/json"),
     mkSession [post_B] [] [] 2, [CQuery]).
Proof. reflexivity. Qed.

End Instances.

(** ** Every way an endpoint can end *)
Section Outcomes.
Import py models flask database ctx jsonschema decorators spec interface.
Local Open Scope list_scope.
#[local] Arguments text.str : simpl never.
Variable repr : json -> string.

Lemma flush_committed (s : Session) : committed (fst (flush s)) = committed s.
Proof.
  unfold flush.
  destruct (fold_left write (pending s) (table s, serial s, [])) as [[rows next] ins].
  reflexivity.
Qed.

Lemma identity_id (changes : list change) (n : Z) (p : Post) :
  identity changes n = Some p -> id p = n.
Proof.
  induction changes as [ | c rest IH]; simpl.
  - discriminate.
  - destruct (identity rest n) as [q | ].
    + intros [= ->]. apply IH. reflexivity.
    + destruct c as [t b | q | q]; try discriminate;
        destruct (Z.eqb_spec (id q) n); try discriminate; intros [= <-]; assumption.
Qed.

(** What a lookup can do, on any session. *)
Lemma get_outcome (n : Z) (req : Request) (s : Session) :
  exists (found : option Post) (s' : Session),
    session.get n req s = (Ok found, s', [CGet n])
    /\ committed s' = committed s
    /\ (forall p, found = Some p -> id p = n)
    /\ (pending s = [] -> s' = s /\ found = find (table s) n).
Proof.
  unfold session.get. destruct (identity (pending s) n) as [p | ] eqn:E.
  - exists (Some p), s. repeat split.
    + intros q [= <-]. apply (identity_id _ _ _ E).
    + rewrite H in E. discriminate.
  - exists (find (table (fst (flush s))) n), (fst (flush s)). repeat split.
    + apply flush_committed.
    + intros p Hp. apply (find_some _ _ _ Hp).
    + rewrite (flush_clean s H). reflexivity.
    + rewrite (flush_clean s H). reflexivity.
Qed.

Lemma malformed_or_carries (members : list (string * json)) :
  malformed members \/ exists t b, carries members t b.
Proof.
  unfold malformed, carries.
  destruct (dict_get members "title") as [vt | ] eqn:Ht; [ | auto ].
  destruct (dict_get members "body") as [vb | ] eqn:Hb; [ | auto ].
  destruct vt; try (left; right; right; left; eexists; split;
                    [ reflexivity | intros x; discriminate ]).
  destruct vb; try (left; right; right; right; eexists; split;
                    [ reflexivity | intros x; discriminate ]).
  right. eauto.
Qed.

Lemma posts_get_def_any (req : Request) (s : Session) :
  api.posts_get_def req s
  = (Ok (api.json_response
           (JArray (map as_dictionary
                        (order_by_id (filter (wanted req) (table (fst (flush s)))))))
           200),
     fst (flush s), [CQuery]).
Proof.
  apply posts_get_def_visible.
Qed.

Lemma post_get_def_outcome (n : Z) (req : Request) (s : Session) :
  exists s' : Session,
    committed s' = committed s
    /\ (api.post_get_def n req s
        = (Ok (api.json_response
                 (api.message ("Could not find post with id " ++ text.str n)%string) 404),
           s', [CGet n])
        \/ exists p, id p = n
                     /\ api.post_get_def n req s
                        = (Ok (api.json_response (as_dictionary p) 200), s', [CGet n])).
Proof.
  destruct (get_outcome n req s) as [found [s' [E [Hc [Hid _]]]]].
  exists s'. split; [ exact Hc | ].
  unfold api.post_get_def, bind. rewrite E.
  destruct found as [p | ]; simpl.
  - right. exists p. split; [ apply Hid | ]; reflexivity.
  - left. reflexivity.
Qed.

Lemma post_delete_def_outcome (n : Z) (req : Request) (s : Session) :
  exists s' : Session,
    committed s' = committed s
    /\ (api.post_delete_def n req s
        = (Ok (api.json_response
                 (api.message ("Could not find post with id " ++ text.str n)%string) 404),
           s', [CGet n])
        \/ api.post_delete_def n req s
           = (Ok (api.json_response
                    (api.message ("Deleted post with id " ++ text.str n)%string) 200),
              s', [CGet n; CDelete])).
Proof.
  destruct (get_outcome n req s) as [found [s' [E [Hc _]]]].
  unfold api.post_delete_def, bind. rewrite E.
  destruct found as [p | ]; simpl.
  - eexists. split; [ | right; reflexivity ]. exact Hc.
  - exists s'. split; [ exact Hc | left; reflexivity ].
Qed.

Lemma posts_post_def_created (req : Request) (s : Session)
      (members : list (string * json)) (t b : string) :
  json_body req = Some (JObject members) ->
  carries members t b ->
  exists (n : Z) (s' : Session),
    api.posts_post_def repr req s
    = (Ok (mkResponse (as_dictionary (mkPost n t b)) 201
                      [("Location", url_for_post_get n)] "application/json"),
       s', [CAdd; CCommit])
    /\ pending s' = [] /\ committed s' = table s' /\ In (mkPost n t b) (table s').
Proof.
  intros Hd Hc. unfold api.posts_post_def, api.request_json, bind, request.
  rewrite Hd. unfold ret at 1. rewrite (validate_carries repr members t b Hc).
  destruct Hc as [Ht Hb]. destruct s as [c rows pd next].
  simpl. rewrite Ht. simpl. rewrite Hb. simpl.
  unfold session.commit, flush. cbn [pending table serial committed].
  rewrite fold_left_app.
  pose proof (written_inserts pd rows next []) as Hlen.
  destruct (fold_left write pd (rows, next, [])) as [[rows' next'] ins].
  simpl in Hlen. cbn [fold_left write]. unfold session.refreshed.
  rewrite <- Hlen, nth_error_app2, Nat.sub_diag by lia. simpl.
  exists next'. eexists. split; [ reflexivity | ]. simpl.
  repeat split. apply in_or_app. right. left. reflexivity.
Qed.

Lemma post_put_def_non_object (n : Z) (req : Request) (s : Session) (document : json) :
  json_body req = Some document ->
  (forall members, document <> JObject members) ->
  exists s' : Session,
    api.post_put_def repr n req s = (Raise TypeError, s', [CGet n])
    /\ committed s' = committed s
    /\ (pending s = [] -> s' = s).
Proof.
  intros Hd Hno. unfold api.post_put_def, api.request_json, bind, request.
  rewrite Hd. unfold ret at 1.
  destruct (get_outcome n req s) as [found [s' [E [Hc [_ Hs]]]]].
  exists s'.
  destruct document; try (exfalso; eapply Hno; reflexivity);
    simpl; rewrite E; simpl;
    (split; [ reflexivity | split; [ exact Hc | intros H; apply (Hs H) ] ]).
Qed.

Lemma posts_post_def_non_object (req : Request) (s : Session) (document : json) :
  json_body req = Some document ->
  (forall members, document <> JObject members) ->
  api.posts_post_def repr req s = (Raise TypeError, s, []).
Proof.
  intros Hd Hno. unfold api.posts_post_def, api.request_json, bind, request.
  rewrite Hd. unfold ret at 1.
  destruct document; try (exfalso; eapply Hno; reflexivity); reflexivity.
Qed.

(** Every way the undecorated POST handler can end, on any session. *)
Lemma posts_post_def_outcome (req : Request) (s : Session) :
  api.posts_post_def repr req s = (Raise BadRequest, s, [])
  \/ api.posts_post_def repr req s = (Raise TypeError, s, [])
  \/ (exists m : string,
        api.posts_post_def repr req s
        = (Ok (api.json_response (api.message m) 422), s, []))
  \/ (exists (p : Post) (s' : Session),
        api.posts_post_def repr req s
        = (Ok (mkResponse (as_dictionary p) 201
                          [("Location", url_for_post_get (id p))] "application/json"),
           s', [CAdd; CCommit])
        /\ pending s' = [] /\ committed s' = table s').
Proof.
  destruct (json_body req) as [document | ] eqn:Hd.
  - assert (Hobj : (exists members, document = JObject members)
                   \/ forall members, document <> JObject members).
    { destruct document; try (right; intros members; discriminate).
      left. eexists. reflexivity. }
    destruct Hobj as [[members ->] | Hno].
    + destruct (malformed_or_carries members) as [Hm | [t [b Hc]]].
      * destruct (validate_malformed repr members Hm) as [e [He _]].
        right. right. left. exists (message e).
        apply (posts_post_def_rejects repr req s _ e Hd He).
      * destruct (posts_post_def_created req s members t b Hd Hc)
          as [n [s' [E [Hp [Hcom _]]]]].
        right. right. right. exists (mkPost n t b), s'. simpl. auto.
    + right. left. apply (posts_post_def_non_object req s document Hd Hno).
  - left. unfold api.posts_post_def, api.request_json, bind, request.
    rewrite Hd. reflexivity.
Qed.

(** Every way the undecorated PUT handler can end, on any session. *)
Lemma post_put_def_outcome (n : Z) (req : Request) (s : Session) :
  api.post_put_def repr n req s = (Raise BadRequest, s, [])
  \/ (exists m : string,
        api.post_put_def repr n req s
        = (Ok (api.json_response (api.message m) 422), s, []))
  \/ (exists (e : exn) (s' : Session),
        api.post_put_def repr n req s = (Raise e, s', [CGet n])
        /\ committed s' = committed s /\ (pending s = [] -> s' = s))
  \/ (exists (p : Post) (s' : Session),
        api.post_put_def repr n req s
        = (Ok (mkResponse (as_dictionary p) 202
                          [("Location", url_for_post_get (id p))] "application/json"),
           s', [CGet n; CAdd; CCommit])
        /\ pending s' = [] /\ committed s' = table s').
Proof.
  destruct (json_body req) as [document | ] eqn:Hd.
  - assert (Hobj : (exists members, document = JObject members)
                   \/ forall members, document <> JObject members).
    { destruct document; try (right; intros members; discriminate).
      left. eexists. reflexivity. }
    destruct Hobj as [[members ->] | Hno].
    + destruct (malformed_or_carries members) as [Hm | [t [b Hc]]].
      * destruct (validate_malformed repr members Hm) as [e [He _]].
        right. left. exists (message e).
        apply (post_put_def_rejects repr n req s _ e Hd He).
      * pose proof Hc as [Ht Hb].
        unfold api.post_put_def, api.request_json, bind, request.
        rewrite Hd. unfold ret. rewrite (validate_carries repr members t b Hc).
        destruct (get_outcome n req s) as [found [s1 [E [Hcom [Hid Hs]]]]].
        rewrite E. destruct found as [p | ].
        -- right. right. right. simpl. rewrite Hb. simpl. rewrite Ht. simpl.
           unfold session.commit, flush. cbn [pending table serial committed].
           destruct (fold_left write _ _) as [[rows next] ins].
           exists (mkPost (id p) t b). eexists.
           split; [ reflexivity | ]. split; reflexivity.
        -- right. right. left. exists AttributeError, s1. simpl. rewrite Hb.
           split; [ reflexivity | ]. split; [ exact Hcom | ].
           intros H. apply (Hs H).
    + destruct (post_put_def_non_object n req s document Hd Hno) as [s' [E H]].
      right. right. left. exists TypeError, s'. auto.
  - left. unfold api.post_put_def, api.request_json, bind, request.
    rewrite Hd. reflexivity.
Qed.

End Outcomes.

(** ** Facts about ascending tables *)
Section Ascending.

Import py models flask database ctx decorators spec interface.
Local Open Scope list_scope.

Lemma insert_above (p : Post) (rows : list Post) :
  Forall (fun q => id p < id q) rows -> insert_by_id p rows = p :: rows.
Proof.
  intros H. destruct rows as [ | q rest]; simpl.
  - reflexivity.
  - apply Forall_inv in H. destruct (Z.leb_spec (id p) (id q)); [ reflexivity | lia ].
Qed.

Lemma order_by_id_ascending (rows : list Post) :
  ascending rows -> order_by_id rows = rows.
Proof.
  unfold ascending. induction rows as [ | p rest IH]; intros H; simpl.
  - reflexivity.
  - apply StronglySorted_inv in H. destruct H as [Hrest Hp].
    rewrite (IH Hrest). apply insert_above. exact Hp.
Qed.

Lemma ascending_app (rows : list Post) (p : Post) :
  ascending rows ->
  (forall q, In q rows -> id q < id p) ->
  ascending (rows ++ [p]).
Proof.
  unfold ascending. induction rows as [ | r rest IH]; intros Hs Hlt; simpl.
  - constructor; constructor.
  - apply StronglySorted_inv in Hs. destruct Hs as [Hrest Hr]. constructor.
    + apply IH; [ exact Hrest | ]. intros q Hq. apply Hlt. right. exact Hq.
    + apply Forall_app. split; [ exact Hr | ].
      constructor; [ | constructor ]. apply Hlt. left. reflexivity.
Qed.

Lemma ascending_app_list (rows more : list Post) :
  ascending rows ->
  ascending more ->
  (forall q r, In q rows -> In r more -> id q < id r) ->
  ascending (rows ++ more).
Proof.
  unfold ascending. induction rows as [ | r rest IH]; intros Hs Hm Hlt; simpl.
  - exact Hm.
  - apply StronglySorted_inv in Hs. destruct Hs as [Hrest Hr]. constructor.
    + apply IH; [ exact Hrest | exact Hm | ].
      intros q x Hq Hx. apply Hlt; [ right; exact Hq | exact Hx ].
    + apply Forall_app. split; [ exact Hr | ].
      apply Forall_forall. intros x Hx. apply Hlt; [ left; reflexivity | exact Hx ].
Qed.

Lemma ascending_replace (p : Post) (rows : list Post) :
  ascending rows -> ascending (replace p rows).
Proof.
  unfold ascending, replace. induction rows as [ | r rest IH]; intros Hs; simpl.
  - constructor.
  - apply StronglySorted_inv in Hs. destruct Hs as [Hrest Hr]. constructor.
    + apply IH. exact Hrest.
    + apply Forall_map. apply Forall_impl with (P := fun q => id r < id q);
        [ | exact Hr ].
      intros q Hq.
      destruct (Z.eqb_spec (id r) (id p)) as [E | E];
        destruct (Z.eqb_spec (id q) (id p)) as [E' | E']; simpl; lia.
Qed.

Lemma replace_below (p : Post) (rows : list Post) (bound : Z) :
  id p < bound ->
  (forall q, In q rows -> id q < bound) ->
  forall q, In q (replace p rows) -> id q < bound.
Proof.
  intros Hp Hrows q Hq. unfold replace in Hq. apply in_map_iff in Hq.
  destruct Hq as [r [Hr Hin]].
  destruct (id r =? id p); subst q; [ exact Hp | apply Hrows; exact Hin ].
Qed.

Lemma find_replace (rows : list Post) (n : Z) (p p' : Post) :
  find rows n = Some p -> id p' = n -> find (replace p' rows) n = Some p'.
Proof.
  intros Hf <-. induction rows as [ | r rest IH]; simpl in *.
  - discriminate.
  - destruct (Z.eqb_spec (id r) (id p')) as [E | E].
    + rewrite Z.eqb_refl. reflexivity.
    + destruct (Z.eqb_spec (id r) (id p')); [ contradiction | ].
      apply IH. exact Hf.
Qed.

Lemma replace_twice (p : Post) (rows : list Post) :
  replace p (replace p rows) = replace p rows.
Proof.
  unfold replace. rewrite map_map. apply map_ext. intros r.
  destruct (Z.eqb_spec (id r) (id p)) as [E | E].
  - rewrite Z.eqb_refl. reflexivity.
  - destruct (Z.eqb_spec (id r) (id p)); [ contradiction | reflexivity ].
Qed.

Lemma remove_absent (p : Post) (rows : list Post) :
  ~ In p (remove p rows).
Proof.
  unfold remove. intros H. apply filter_In in H. destruct H as [_ H].
  rewrite Z.eqb_refl in H. discriminate.
Qed.

End Ascending.

(** ** Further properties of the endpoints *)
Section Further.

Import py models flask database ctx decorators spec interface.
Local Open Scope list_scope.

#[local] Arguments text.str : simpl never.

Lemma guard_outcome (func : M Response) (req : Request) (s : Session) :
  accept "application/json" func req s = (Ok not_acceptable, s, [])
  \/ accept "application/json" func req s = func req s.
Proof.
  unfold accept. destruct (acceptable "application/json" (accept_header req)).
  - right. reflexivity.
  - left. reflexivity.
Qed.

Lemma guards_outcome (func : M Response) (req : Request) (s : Session) :
  accept "application/json" (require "application/json" func) req s
  = (Ok not_acceptable, s, [])
  \/ accept "application/json" (require "application/json" func) req s
     = (Ok unsupported_media_type, s, [])
  \/ accept "application/json" (require "application/json" func) req s = func req s.
Proof.
  unfold accept, require.
  destruct (acceptable "application/json" (accept_header req)).
  - destruct (request_mimetype req =? "application/json")%string; auto.
  - auto.
Qed.

(** X1: on a session with nothing waiting to be written, GET of an id the
    table has (Accept-guard passed) is answered 200 with the record of
    the first row of that id; the session is unchanged and the lookup is
    the only call made on it. *)
Theorem known_id_is_served :
  forall (req : Request) (s : Session) (n : Z) (p : Post),
    passes_accept req ->
    clean s ->
    find (table s) n = Some p ->
    api.post_get n req s
    = (Ok (mkResponse
             (JObject [("id", JInt n); ("title", JString (title p));
                       ("body", JString (body p))])
             200 [] "application/json"),
       s, [CGet n]).
Proof.
  intros req s n p Ha Hs Hp. destruct (find_some _ _ _ Hp) as [Hid _].
  unfold api.post_get. rewrite (accept_passes _ _ _ Ha).
  unfold api.post_get_def, bind, session.get.
  rewrite Hs, (flush_clean s Hs). simpl. rewrite Hp. simpl.
  unfold as_dictionary. rewrite Hid. reflexivity.
Qed.

(** X2: a POST or PUT request that passes both guards and whose decoded
    body is not an object (an array, a string, a number, a boolean,
    null) gets no answer: the schema lets the document through and
    indexing it by a key raises [TypeError]. POST raises before any call
    on the session; PUT raises after the lookup, with nothing added or
    committed. *)
Theorem non_object_body_faults :
  forall (repr : json -> string) (req : Request) (s : Session)
         (document : json) (n : Z),
    passes_accept req ->
    passes_require req ->
    json_body req = Some document ->
    (forall members, document <> JObject members) ->
    api.posts_post repr req s = (Raise TypeError, s, [])
    /\ exists s' : Session,
         api.post_put repr n req s = (Raise TypeError, s', [CGet n])
         /\ committed s' = committed s
         /\ (clean s -> s' = s).
Proof.
  intros repr req s document n Ha Hr Hd Hno. split.
  - unfold api.posts_post.
    rewrite (accept_passes _ _ _ Ha), (require_passes _ _ _ Hr).
    apply (posts_post_def_non_object repr req s document Hd Hno).
  - unfold api.post_put.
    rewrite (accept_passes _ _ _ Ha), (require_passes _ _ _ Hr).
    apply (post_put_def_non_object repr n req s document Hd Hno).
Qed.

(** X3: a POST request that passes both guards and whose decoded body is
    an object is always answered, whatever the session holds: with 422
    and nothing touched, or with 201 after one add and one commit that
    leave nothing waiting. *)
Theorem object_body_is_always_answered :
  forall (repr : json -> string) (req : Request) (s : Session)
         (members : list (string * json)),
    passes_accept req ->
    passes_require req ->
    json_body req = Some (JObject members) ->
    exists (r : Response) (s' : Session) (calls : list call),
      api.posts_post repr req s = (Ok r, s', calls)
      /\ ((status r = 422 /\ s' = s /\ calls = [])
          \/ (status r = 201 /\ calls = [CAdd; CCommit]
              /\ pending s' = [] /\ committed s' = table s')).
Proof.
  intros repr req s members Ha Hr Hd. unfold api.posts_post.
  rewrite (accept_passes _ _ _ Ha), (require_passes _ _ _ Hr).
  destruct (malformed_or_carries members) as [Hm | [t [b Hc]]].
  - destruct (validate_malformed repr members Hm) as [e [He _]].
    rewrite (posts_post_def_rejects repr req s _ e Hd He).
    eexists. exists s, []. split; [ reflexivity | ]. left. auto.
  - destruct (posts_post_def_created repr req s members t b Hd Hc)
      as [n [s' [E [Hp [Hcom _]]]]].
    rewrite E. eexists. exists s', [CAdd; CCommit].
    split; [ reflexivity | ]. right. auto.
Qed.

(** X4: the three endpoints without a body always answer, on any request
    and any session, and the answer has one of the shapes of the API with
    content type [application/json]: the list endpoint answers 200 or
    406, GET and DELETE of one post answer 200, 404 or 406. *)
Theorem reads_and_delete_always_answer :
  forall (req : Request) (s : Session) (n : Z),
    (exists r s' calls,
        api.posts_get req s = (Ok r, s', calls)
        /\ answer r /\ mimetype r = "application/json"%string
        /\ In (status r) [200; 406])
    /\ (exists r s' calls,
           api.post_get n req s = (Ok r, s', calls)
           /\ answer r /\ mimetype r = "application/json"%string
           /\ In (status r) [200; 404; 406])
    /\ (exists r s' calls,
           api.post_delete n req s = (Ok r, s', calls)
           /\ answer r /\ mimetype r = "application/json"%string
           /\ In (status r) [200; 404; 406]).
Proof.
  intros req s n.
  assert (Hna : answer not_acceptable)
    by (apply answer_message; simpl; auto).
  split; [ | split ].
  - destruct (guard_outcome api.posts_get_def req s) as [E | E];
      unfold api.posts_get; rewrite E.
    + exists not_acceptable, s, []. simpl. auto 10.
    + rewrite posts_get_def_any. eexists. eexists. eexists.
      split; [ reflexivity | ]. split; [ apply answer_list | ]. simpl. auto.
  - destruct (guard_outcome (api.post_get_def n) req s) as [E | E];
      unfold api.post_get; rewrite E.
    + exists not_acceptable, s, []. simpl. auto 10.
    + destruct (post_get_def_outcome n req s) as [s' [_ [E' | [p [_ E']]]]];
        rewrite E'; eexists; eexists; eexists; (split; [ reflexivity | ]).
      * split; [ apply answer_message; simpl; auto | ]. simpl. auto.
      * split; [ apply answer_record | ]. simpl. auto.
  - destruct (guard_outcome (api.post_delete_def n) req s) as [E | E];
      unfold api.post_delete; rewrite E.
    + exists not_acceptable, s, []. simpl. auto 10.
    + destruct (post_delete_def_outcome n req s) as [s' [_ [E' | E']]];
        rewrite E'; eexists; eexists; eexists; (split; [ reflexivity | ]).
      * split; [ apply answer_message; simpl; auto | ]. simpl. auto.
      * split; [ apply answer_message; simpl; auto | ]. simpl. auto.
Qed.

(** X5: whenever POST or PUT answers, on any request and any session, the
    answer has one of the shapes of the API with content type
    [application/json]; POST answers 201, 406, 415 or 422 and PUT answers
    202, 406, 415 or 422: PUT never answers 404. *)
Theorem write_answers_conform :
  forall (repr : json -> string) (req : Request) (s : Session) (n : Z)
         (r : Response) (s' : Session) (calls : list call),
    (api.posts_post repr req s = (Ok r, s', calls) ->
     answer r /\ mimetype r = "application/json"%string
     /\ In (status r) [201; 406; 415; 422])
    /\ (api.post_put repr n req s = (Ok r, s', calls) ->
        answer r /\ mimetype r = "application/json"%string
        /\ In (status r) [202; 406; 415; 422]).
Proof.
  intros repr req s n r s' calls.
  assert (Hna : answer not_acceptable)
    by (apply answer_message; simpl; auto).
  assert (Hun : answer unsupported_media_type)
    by (apply answer_message; simpl; auto 10).
  split; intros H.
  - unfold api.posts_post in H.
    destruct (guards_outcome (api.posts_post_def repr) req s) as [E | [E | E]];
      rewrite E in H.
    + injection H as <- _ _. simpl. auto 10.
    + injection H as <- _ _. simpl. auto 10.
    + destruct (posts_post_def_outcome repr req s)
        as [E' | [E' | [[m E'] | [p [s1 [E' _]]]]]];
        rewrite E' in H; try discriminate; injection H as <- _ _.
      * split; [ apply answer_message; simpl; auto 10 | ]. simpl. auto 10.
      * split; [ apply answer_located; simpl; auto | ]. simpl. auto.
  - unfold api.post_put in H.
    destruct (guards_outcome (api.post_put_def repr n) req s) as [E | [E | E]];
      rewrite E in H.
    + injection H as <- _ _. simpl. auto 10.
    + injection H as <- _ _. simpl. auto 10.
    + destruct (post_put_def_outcome repr n req s)
        as [E' | [[m E'] | [[e [s1 [E' _]]] | [p [s1 [E' _]]]]]];
        rewrite E' in H; try discriminate; injection H as <- _ _.
      * split; [ apply answer_message; simpl; auto 10 | ]. simpl. auto 10.
      * split; [ apply answer_located; simpl; auto | ]. simpl. auto.
Qed.

(** X6: the two GET endpoints never write, on any request and any
    session: the committed rows are the same after as before and no add,
    delete or commit is called. *)
Theorem reads_never_write :
  forall (req : Request) (s : Session) (n : Z),
    (let '(_, s', calls) := api.posts_get req s in
     committed s' = committed s /\ Forall (fun c => writes c = false) calls)
    /\ (let '(_, s', calls) := api.post_get n req s in
        committed s' = committed s /\ Forall (fun c => writes c = false) calls).
Proof.
  intros req s n. split.
  - destruct (guard_outcome api.posts_get_def req s) as [E | E];
      unfold api.posts_get; rewrite E.
    + split; [ reflexivity | constructor ].
    + rewrite posts_get_def_any. split; [ apply flush_committed | ].
      repeat constructor.
  - destruct (guard_outcome (api.post_get_def n) req s) as [E | E];
      unfold api.post_get; rewrite E.
    + split; [ reflexivity | constructor ].
    + destruct (post_get_def_outcome n req s) as [s' [Hc [E' | [p [_ E']]]]];
        rewrite E'; (split; [ exact Hc | repeat constructor ]).
Qed.

(** X7: a POST or PUT that does not end in its success answer changes
    nothing that is committed, on any request and any session. Unless POST
    answers 201 it leaves the session as it was and makes no call on it;
    unless PUT answers 202 the committed rows are as before and no add,
    delete or commit was called. *)
Theorem failed_write_changes_nothing :
  forall (repr : json -> string) (req : Request) (s : Session) (n : Z)
         (out : result Response) (s' : Session) (calls : list call),
    (api.posts_post repr req s = (out, s', calls) ->
     (forall r, out = Ok r -> status r <> 201) ->
     s' = s /\ calls = [])
    /\ (api.post_put repr n req s = (out, s', calls) ->
        (forall r, out = Ok r -> status r <> 202) ->
        committed s' = committed s
        /\ Forall (fun c => writes c = false) calls
        /\ (clean s -> s' = s)).
Proof.
  intros repr req s n out s' calls. split; intros H Hfail.
  - unfold api.posts_post in H.
    destruct (guards_outcome (api.posts_post_def repr) req s) as [E | [E | E]];
      rewrite E in H; try (injection H as _ <- <-; split; reflexivity).
    destruct (posts_post_def_outcome repr req s)
      as [E' | [E' | [[m E'] | [p [s1 [E' _]]]]]];
      rewrite E' in H; injection H as <- <- <-;
      try (split; reflexivity).
    exfalso. eapply Hfail; reflexivity.
  - unfold api.post_put in H.
    destruct (guards_outcome (api.post_put_def repr n) req s) as [E | [E | E]];
      rewrite E in H;
      try (injection H as _ <- <-;
           split; [ reflexivity | split; [ constructor | reflexivity ] ]).
    destruct (post_put_def_outcome repr n req s)
      as [E' | [[m E'] | [[e [s1 [E' [Hc Hs]]]] | [p [s1 [E' _]]]]]];
      rewrite E' in H; injection H as <- <- <-;
      try (split; [ reflexivity | split; [ constructor | reflexivity ] ]).
    + split; [ exact Hc | ]. split; [ repeat constructor | exact Hs ].
    + exfalso. eapply Hfail; reflexivity.
Qed.

(** X8: a created post can be read back. On a consistent session, after
    the 201 of a valid POST, GET of the generated id is answered 200 with
    the very record the POST answered, and the session stays as the POST
    left it. *)
Theorem created_post_can_be_read :
  forall (repr : json -> string) (req req' : Request) (s : Session)
         (members : list (string * json)) (t b : string),
    passes_accept req ->
    passes_require req ->
    json_body req = Some (JObject members) ->
    carries members t b ->
    passes_accept req' ->
    consistent s ->
    exists (r : Response) (s' : Session),
      api.posts_post repr req s = (Ok r, s', [CAdd; CCommit])
      /\ status r = 201
      /\ api.post_get (serial s) req' s'
         = (Ok (mkResponse (data r) 200 [] "application/json"), s', [CGet (serial s)]).
Proof.
  intros repr req req' s members t b Ha Hr Hd Hc Ha' [Hs [Hcom [Hasc Hlt]]].
  eexists. eexists. split; [ | split ].
  - unfold api.posts_post.
    rewrite (accept_passes _ _ _ Ha), (require_passes _ _ _ Hr).
    apply (posts_post_def_creates repr req s members t b Hd Hc Hs).
  - reflexivity.
  - unfold api.post_get. rewrite (accept_passes _ _ _ Ha').
    unfold api.post_get_def, bind, session.get. simpl.
    rewrite (generated_id_is_new s t b Hlt). reflexivity.
Qed.

(** X9: an updated post can be read back. On a session with nothing
    waiting to be written, after the 202 of a valid PUT on an id the
    table has, GET of that id is answered 200 with the very record the
    PUT answered. *)
Theorem updated_post_can_be_read :
  forall (repr : json -> string) (req req' : Request) (s : Session)
         (members : list (string * json)) (t b : string) (n : Z) (p : Post),
    passes_accept req ->
    passes_require req ->
    json_body req = Some (JObject members) ->
    carries members t b ->
    passes_accept req' ->
    clean s ->
    find (table s) n = Some p ->
    exists (r : Response) (s' : Session),
      api.post_put repr n req s = (Ok r, s', [CGet n; CAdd; CCommit])
      /\ status r = 202
      /\ api.post_get n req' s'
         = (Ok (mkResponse (data r) 200 [] "application/json"), s', [CGet n]).
Proof.
  intros repr req req' s members t b n p Ha Hr Hd Hc Ha' Hs Hp.
  eexists. eexists. split; [ | split ].
  - unfold api.post_put.
    rewrite (accept_passes _ _ _ Ha), (require_passes _ _ _ Hr).
    apply (post_put_def_updates repr n req s members t b p Hd Hc Hs Hp).
  - reflexivity.
  - unfold api.post_get. rewrite (accept_passes _ _ _ Ha').
    unfold api.post_get_def, bind, session.get. simpl.
    rewrite (find_replace (table s) n p (mkPost n t b) Hp eq_refl). reflexivity.
Qed.

(** X10: PUT is idempotent. On a session with nothing waiting to be
    written, repeating a valid PUT on an id the table has gives the same
    answer and leaves the session exactly as the first one left it. *)
Theorem put_is_idempotent :
  forall (repr : json -> string) (req : Request) (s : Session)
         (members : list (string * json)) (t b : string) (n : Z) (p : Post),
    passes_accept req ->
    passes_require req ->
    json_body req = Some (JObject members) ->
    carries members t b ->
    clean s ->
    find (table s) n = Some p ->
    exists (r : Response) (s' : Session),
      api.post_put repr n req s = (Ok r, s', [CGet n; CAdd; CCommit])
      /\ api.post_put repr n req s' = (Ok r, s', [CGet n; CAdd; CCommit]).
Proof.
  intros repr req s members t b n p Ha Hr Hd Hc Hs Hp.
  eexists. eexists. split.
  - unfold api.post_put.
    rewrite (accept_passes _ _ _ Ha), (require_passes _ _ _ Hr).
    apply (post_put_def_updates repr n req s members t b p Hd Hc Hs Hp).
  - unfold api.post_put.
    rewrite (accept_passes _ _ _ Ha), (require_passes _ _ _ Hr).
    rewrite (post_put_def_updates repr n req _ members t b (mkPost n t b) Hd Hc);
      [ | reflexivity
        | apply (find_replace (table s) n p (mkPost n t b) Hp eq_refl) ].
    simpl. rewrite replace_twice. reflexivity.
Qed.

Lemma posts_post_state (repr : json -> string) (req : Request) (s : Session) :
  clean s ->
  snd (fst (api.posts_post repr req s)) = s
  \/ exists t b,
       snd (fst (api.posts_post repr req s))
       = mkSession (table s ++ [mkPost (serial s) t b])
                   (table s ++ [mkPost (serial s) t b]) [] (serial s + 1).
Proof.
  intros Hs. unfold api.posts_post.
  destruct (guards_outcome (api.posts_post_def repr) req s) as [E | [E | E]];
    rewrite E; auto.
  destruct (json_body req) as [document | ] eqn:Hd.
  - destruct document;
      try (left; rewrite (posts_post_def_non_object repr req s _ Hd);
           [ reflexivity | intros members; discriminate ]).
    destruct (malformed_or_carries members) as [Hm | [t [b Hc]]].
    + destruct (validate_malformed repr members Hm) as [e [He _]].
      left. rewrite (posts_post_def_rejects repr req s _ e Hd He). reflexivity.
    + right. exists t, b.
      rewrite (posts_post_def_creates repr req s members t b Hd Hc Hs). reflexivity.
  - left. destruct (posts_post_def_outcome repr req s)
      as [E' | [E' | [[m E'] | [p [s1 [E' _]]]]]];
      try (rewrite E'; reflexivity).
    exfalso. unfold api.posts_post_def, api.request_json, bind, request in E'.
    rewrite Hd in E'. discriminate.
Qed.

Lemma post_put_state (repr : json -> string) (n : Z) (req : Request) (s : Session) :
  clean s ->
  snd (fst (api.post_put repr n req s)) = s
  \/ exists p t b,
       find (table s) n = Some p
       /\ snd (fst (api.post_put repr n req s))
          = mkSession (replace (mkPost n t b) (table s))
                      (replace (mkPost n t b) (table s)) [] (serial s).
Proof.
  intros Hs. unfold api.post_put.
  destruct (guards_outcome (api.post_put_def repr n) req s) as [E | [E | E]];
    rewrite E; auto.
  destruct (post_put_def_outcome repr n req s)
    as [E' | [[m E'] | [[e [s1 [E' [_ Hsame]]]] | [p [s1 [E' _]]]]]];
    try (left; rewrite E'; reflexivity).
  - left. rewrite E'. simpl. apply Hsame. exact Hs.
  - destruct (json_body req) as [document | ] eqn:Hd.
    + destruct document;
        try (exfalso;
             destruct (post_put_def_non_object repr n req s _ Hd) as [s2 [E2 _]];
             [ intros members; discriminate | congruence ]).
      destruct (malformed_or_carries members) as [Hm | [t [b Hc]]].
      * exfalso. destruct (validate_malformed repr members Hm) as [e [He _]].
        rewrite (post_put_def_rejects repr n req s _ e Hd He) in E'. discriminate.
      * destruct (find (table s) n) as [q | ] eqn:Hq.
        -- right. exists q, t, b. split; [ reflexivity | ].
           rewrite (post_put_def_updates repr n req s members t b q Hd Hc Hs Hq).
           reflexivity.
        -- exfalso.
           rewrite (post_put_def_missing repr n req s members t b Hd Hc Hs Hq) in E'.
           discriminate.
    + exfalso. unfold api.post_put_def, api.request_json, bind, request in E'.
      rewrite Hd in E'. discriminate.
Qed.

(** X11: consistency is kept. On a consistent session (nothing waiting,
    the transaction showing the committed rows, ids strictly ascending
    and below the next generated id), whatever the request and however
    it ends, the list endpoint, GET, POST and PUT leave a consistent
    session. *)
Theorem consistency_is_kept :
  forall (repr : json -> string) (req : Request) (s : Session) (n : Z),
    consistent s ->
    consistent (snd (fst (api.posts_get req s)))
    /\ consistent (snd (fst (api.post_get n req s)))
    /\ consistent (snd (fst (api.posts_post repr req s)))
    /\ consistent (snd (fst (api.post_put repr n req s))).
Proof.
  intros repr req s n Hcons. pose proof Hcons as [Hs [Hcom [Hasc Hlt]]].
  split; [ | split; [ | split ] ].
  - destruct (guard_outcome api.posts_get_def req s) as [E | E];
      unfold api.posts_get; rewrite E; [ exact Hcons | ].
    rewrite posts_get_def_any, (flush_clean s Hs). exact Hcons.
  - destruct (guard_outcome (api.post_get_def n) req s) as [E | E];
      unfold api.post_get; rewrite E; [ exact Hcons | ].
    unfold api.post_get_def, bind.
    destruct (get_outcome n req s) as [found [s' [E' [_ [_ Hsame]]]]].
    rewrite E'. destruct (Hsame Hs) as [-> _].
    destruct found; exact Hcons.
  - destruct (posts_post_state repr req s Hs) as [-> | [t [b ->]]];
      [ exact Hcons | ].
    split; [ reflexivity | split; [ reflexivity | split ] ]; simpl.
    + apply ascending_app; [ exact Hasc | exact Hlt ].
    + intros q Hq. apply in_app_or in Hq. destruct Hq as [Hq | [<- | []]].
      * specialize (Hlt q Hq). lia.
      * simpl. lia.
  - destruct (post_put_state repr n req s Hs) as [-> | [p [t [b [Hp ->]]]]];
      [ exact Hcons | ].
    destruct (find_some _ _ _ Hp) as [Hid Hin].
    split; [ reflexivity | split; [ reflexivity | split ] ]; simpl.
    + apply ascending_replace. exact Hasc.
    + apply replace_below; [ | exact Hlt ].
      simpl. rewrite <- Hid. apply Hlt. exact Hin.
Qed.

Lemma wanted_unfiltered (req : Request) (p : Post) :
  unfiltered req -> wanted req p = true.
Proof.
  intros [Ht Hb]. unfold wanted.
  rewrite <- (like_truthy (args_get (args req) "title_like")).
  rewrite <- (like_truthy (args_get (args req) "content_like")).
  rewrite Ht, Hb. reflexivity.
Qed.

Lemma filter_all {A : Type} (f : A -> bool) (l : list A) :
  (forall a, f a = true) -> filter f l = l.
Proof.
  intros H. induction l as [ | a l IH]; simpl.
  - reflexivity.
  - rewrite H, IH. reflexivity.
Qed.

(** X12: without a filter the list is the whole table. On a consistent
    session, GET /api/posts (Accept-guard passed) whose [title_like] and
    [content_like] are each missing or empty is answered 200 with the
    record of every row, in the order of the table. *)
Theorem unfiltered_list_is_the_table :
  forall (req : Request) (s : Session),
    passes_accept req ->
    consistent s ->
    unfiltered req ->
    api.posts_get req s
    = (Ok (mkResponse (JArray (map as_dictionary (table s))) 200 [] "application/json"),
       s, [CQuery]).
Proof.
  intros req s Ha [Hs [_ [Hasc _]]] Hu.
  unfold api.posts_get. rewrite (accept_passes _ _ _ Ha).
  rewrite (posts_get_def_run req s Hs).
  rewrite (filter_all _ _ (fun p => wanted_unfiltered req p Hu)).
  rewrite (order_by_id_ascending _ Hasc). reflexivity.
Qed.

Lemma add_all_run (posts : list (string * string)) (req : Request) :
  forall s : Session,
    tests.add_all posts req s
    = (Ok tt,
       mkSession (committed s) (table s)
                 (pending s ++ map (fun tb => Insert (fst tb) (snd tb)) posts)
                 (serial s),
       repeat CAdd (List.length posts)).
Proof.
  induction posts as [ | [t b] rest IH]; intros s; simpl.
  - rewrite app_nil_r. destruct s; reflexivity.
  - unfold bind. simpl. rewrite IH. simpl. rewrite <- app_assoc. reflexivity.
Qed.

Lemma write_inserts (posts : list (string * string)) :
  forall (rows : list Post) (n : Z) (ins : list Post),
    fold_left write (map (fun tb => Insert (fst tb) (snd tb)) posts) (rows, n, ins)
    = (rows ++ numbered n posts, n + Z.of_nat (List.length posts),
       ins ++ numbered n posts).
Proof.
  induction posts as [ | [t b] rest IH]; intros rows n ins.
  - simpl. rewrite !app_nil_r, Z.add_0_r. reflexivity.
  - cbn [map fold_left write fst snd]. rewrite IH.
    cbn [numbered List.length]. rewrite <- !app_assoc. simpl.
    f_equal. f_equal. lia.
Qed.

Lemma numbered_ids (posts : list (string * string)) :
  forall (n : Z) (p : Post),
    In p (numbered n posts) -> n <= id p < n + Z.of_nat (List.length posts).
Proof.
  induction posts as [ | [t b] rest IH]; intros n p Hp; simpl in Hp.
  - contradiction.
  - cbn [List.length]. destruct Hp as [<- | Hp].
    + simpl. lia.
    + specialize (IH (n + 1) p Hp). lia.
Qed.

Lemma numbered_ascending (posts : list (string * string)) :
  forall n : Z, ascending (numbered n posts).
Proof.
  unfold ascending. induction posts as [ | [t b] rest IH]; intros n; simpl.
  - constructor.
  - constructor; [ apply IH | ].
    apply Forall_forall. intros q Hq. apply numbered_ids in Hq. simpl. lia.
Qed.

(** X13: the setup of the tests fills the table in order. On a consistent
    session, [session.add_all] of new posts followed by [session.commit]
    appends them to the table with consecutive ids from the next
    generated one, in the order given, and leaves a consistent session;
    an unfiltered GET /api/posts then lists the old rows followed by the
    new ones. *)
Theorem tests_setup_fills_the_table :
  forall (posts : list (string * string)) (req req' : Request) (s : Session),
    consistent s ->
    passes_accept req' ->
    unfiltered req' ->
    let rows := table s ++ numbered (serial s) posts in
    let s' := mkSession rows rows [] (serial s + Z.of_nat (List.length posts)) in
    tests.add_all_and_commit posts req s
    = (Ok (numbered (serial s) posts), s', repeat CAdd (List.length posts) ++ [CCommit])
    /\ consistent s'
    /\ api.posts_get req' s'
       = (Ok (mkResponse (JArray (map as_dictionary rows)) 200 [] "application/json"),
          s', [CQuery]).
Proof.
  intros posts req req' s [Hs [Hcom [Hasc Hlt]]] Ha Hu rows s'.
  assert (Hcons : consistent s').
  { split; [ reflexivity | split; [ reflexivity | split ] ]; simpl.
    - apply ascending_app_list; [ exact Hasc | apply numbered_ascending | ].
      intros q r Hq Hr. apply numbered_ids in Hr. specialize (Hlt q Hq). lia.
    - intros q Hq. apply in_app_or in Hq. destruct Hq as [Hq | Hq].
      + specialize (Hlt q Hq). lia.
      + apply numbered_ids in Hq. lia. }
  split; [ | split; [ exact Hcons | ] ].
  - unfold tests.add_all_and_commit, bind. rewrite add_all_run.
    unfold session.commit, flush. cbn [pending table serial committed].
    rewrite Hs. simpl app. rewrite write_inserts. reflexivity.
  - destruct Hcons as [Hs' [_ [Hasc' _]]].
    unfold api.posts_get. rewrite (accept_passes _ _ _ Ha).
    rewrite (posts_get_def_run req' s' Hs').
    rewrite (filter_all _ _ (fun p => wanted_unfiltered req' p Hu)).
    rewrite (order_by_id_ascending _ Hasc'). reflexivity.
Qed.

(** X14: a deletion left waiting is committed by the next POST. On a
    consistent session, after DELETE of an id the table has, the
    committed rows are still the whole table; a valid POST that follows
    commits both changes: the committed rows are then the table without
    the deleted post, followed by the new one. *)
Theorem next_post_commits_the_deletion :
  forall (repr : json -> string) (req req' : Request) (s : Session)
         (members : list (string * json)) (t b : string) (n : Z) (p : Post),
    passes_accept req ->
    passes_accept req' ->
    passes_require req' ->
    json_body req' = Some (JObject members) ->
    carries members t b ->
    consistent s ->
    find (table s) n = Some p ->
    let s1 := snd (fst (api.post_delete n req s)) in
    let rows := remove p (table s) ++ [mkPost (serial s) t b] in
    committed s1 = table s
    /\ api.posts_post repr req' s1
       = (Ok (mkResponse
                (JObject [("id", JInt (serial s)); ("title", JString t);
                          ("body", JString b)])
                201
                [("Location", ("/api/posts/" ++ text.str (serial s))%string)]
                "application/json"),
          mkSession rows rows [] (serial s + 1),
          [CAdd; CCommit])
    /\ ~ In p rows.
Proof.
  intros repr req req' s members t b n p Ha Ha' Hr Hd Hc [Hs [Hcom [Hasc Hlt]]] Hp s1 rows.
  destruct (find_some _ _ _ Hp) as [Hid Hin].
  assert (E1 : s1 = mkSession (committed s) (table s) [Remove p] (serial s)).
  { unfold s1, api.post_delete. rewrite (accept_passes _ _ _ Ha).
    rewrite (post_delete_def_found n req s p Hs Hp). reflexivity. }
  split; [ | split ].
  - rewrite E1. exact Hcom.
  - rewrite E1. unfold api.posts_post.
    rewrite (accept_passes _ _ _ Ha'), (require_passes _ _ _ Hr).
    unfold api.posts_post_def, api.request_json, bind, request.
    rewrite Hd. unfold ret. rewrite (validate_carries repr members t b Hc).
    destruct Hc as [Ht Hb]. simpl. rewrite Ht. simpl. rewrite Hb. reflexivity.
  - unfold rows. intros H. apply in_app_or in H. destruct H as [H | [H | []]].
    + apply (remove_absent p (table s) H).
    + specialize (Hlt p Hin). rewrite <- H in Hlt. simpl in Hlt. lia.
Qed.

(** X15: of the body only [title] and [body] count. On a session with
    nothing waiting to be written, a valid POST or PUT ends exactly as
    the same request with the body [{"title": t, "body": b}] alone:
    further keys, an [id] among them, change neither the answer nor the
    session. *)
Theorem only_title_and_body_count :
  forall (repr : json -> string) (req : Request) (s : Session)
         (members : list (string * json)) (t b : string) (n : Z),
    passes_accept req ->
    passes_require req ->
    json_body req = Some (JObject members) ->
    carries members t b ->
    clean s ->
    let plain :=
      mkRequest (accept_header req) (content_type req) (args req)
                (Some (JObject [("title", JString t); ("body", JString b)])) in
    api.posts_post repr req s = api.posts_post repr plain s
    /\ api.post_put repr n req s = api.post_put repr n plain s.
Proof.
  intros repr req s members t b n Ha Hr Hd Hc Hs plain.
  assert (Ha' : passes_accept plain) by exact Ha.
  assert (Hr' : passes_require plain) by exact Hr.
  assert (Hc' : carries [("title", JString t); ("body", JString b)] t b)
    by (split; reflexivity).
  split.
  - unfold api.posts_post.
    rewrite (accept_passes _ _ _ Ha), (require_passes _ _ _ Hr).
    rewrite (accept_passes _ _ _ Ha'), (require_passes _ _ _ Hr').
    rewrite (posts_post_def_creates repr req s members t b Hd Hc Hs).
    rewrite (posts_post_def_creates repr plain s _ t b eq_refl Hc' Hs).
    reflexivity.
  - unfold api.post_put.
    rewrite (accept_passes _ _ _ Ha), (require_passes _ _ _ Hr).
    rewrite (accept_passes _ _ _ Ha'), (require_passes _ _ _ Hr').
    destruct (find (table s) n) as [p | ] eqn:Hp.
    + rewrite (post_put_def_updates repr n req s members t b p Hd Hc Hs Hp).
      rewrite (post_put_def_updates repr n plain s _ t b p eq_refl Hc' Hs Hp).
      reflexivity.
    + rewrite (post_put_def_missing repr n req s members t b Hd Hc Hs Hp).
      rewrite (post_put_def_missing repr n plain s _ t b eq_refl Hc' Hs Hp).
      reflexivity.
Qed.

End Further.

(** ** Worked instances of the further properties *)
Section FurtherInstances.

Import py models flask database ctx decorators spec interface.
Local Open Scope list_scope.

Lemma one_post_is_consistent : consistent one_post.
Proof.
  split; [ reflexivity | split; [ reflexivity | split ] ].
  - constructor; constructor.
  - intros p [<- | []]. simpl. lia.
Qed.

Lemma empty_store_is_consistent : consistent empty_store.
Proof.
  split; [ reflexivity | split; [ reflexivity | split ] ].
  - constructor.
  - intros p [].
Qed.

Lemma title_and_body_are_carried :
  carries [("id", JInt 7); ("title", JString "A"); ("body", JString "B")] "A" "B".
Proof.
  split; reflexivity.
Qed.

Lemma no_parameter_is_unfiltered :
  unfiltered (get_request "application/json" [("title_like", ""%string)]).
Proof.
  split; reflexivity.
Qed.

(** [test_get_post]. *)
Lemma known_id_witness :
  passes_accept (get_request "application/json" [])
  /\ clean one_post
  /\ find (table one_post) 1 = Some post_B
  /\ api.post_get 1 (get_request "application/json" []) one_post
     = (Ok (mkResponse
              (JObject [("id", JInt 1); ("title", JString "Example Post B");
                        ("body", JString "Still a test")])
              200 [] "application/json"),
        one_post, [CGet 1]).
Proof.
  split; [ reflexivity | split; [ reflexivity | split; [ reflexivity | ] ] ].
  exact (known_id_is_served (get_request "application/json" []) one_post 1 post_B
                            eq_refl eq_refl eq_refl).
Defined.

Lemma array_is_no_object : forall members, JArray [] <> JObject members.
Proof.
  intros members. discriminate.
Qed.

Lemma non_object_body_witness :
  passes_accept (write_request "application/json" "application/json" (JArray []))
  /\ passes_require (write_request "application/json" "application/json" (JArray []))
  /\ api.posts_post sample_repr
                    (write_request "application/json" "application/json" (JArray []))
                    one_post
     = (Raise TypeError, one_post, []).
Proof.
  split; [ reflexivity | split; [ reflexivity | ] ].
  exact (proj1 (non_object_body_faults
                  sample_repr
                  (write_request "application/json" "application/json" (JArray []))
                  one_post (JArray []) 1 eq_refl eq_refl eq_refl array_is_no_object)).
Defined.

Lemma object_body_witness :
  passes_accept (write_request "application/json" "application/json"
                               (JObject [("title", JInt 3)]))
  /\ passes_require (write_request "application/json" "application/json"
                                   (JObject [("title", JInt 3)]))
  /\ exists (r : Response) (s' : Session) (calls : list call),
       api.posts_post sample_repr
                      (write_request "application/json" "application/json"
                                     (JObject [("title", JInt 3)]))
                      one_post
       = (Ok r, s', calls)
       /\ ((status r = 422 /\ s' = one_post /\ calls = [])
           \/ (status r = 201 /\ calls = [CAdd; CCommit]
               /\ pending s' = [] /\ committed s' = table s')).
Proof.
  split; [ reflexivity | split; [ reflexivity | ] ].
  exact (object_body_is_always_answered
           sample_repr
           (write_request "application/json" "application/json"
                          (JObject [("title", JInt 3)]))
           one_post [("title", JInt 3)] eq_refl eq_refl eq_refl).
Defined.

Lemma write_answers_witness :
  api.posts_post sample_repr
                 (write_request "application/json" "application/json"
                                (JObject [("title", JString "A"); ("body", JString "B")]))
                 empty_store
  = (Ok (mkResponse (as_dictionary (mkPost 1 "A" "B")) 201
                    [("Location", "/api/posts/1"%string)] "application/json"),
     mkSession [mkPost 1 "A" "B"] [mkPost 1 "A" "B"] [] 2, [CAdd; CCommit])
  /\ answer (mkResponse (as_dictionary (mkPost 1 "A" "B")) 201
                        [("Location", "/api/posts/1"%string)] "application/json").
Proof.
  split; [ reflexivity | ].
  exact (proj1 (proj1 (write_answers_conform
                         sample_repr
                         (write_request "application/json" "application/json"
                                        (JObject [("title", JString "A");
                                                  ("body", JString "B")]))
                         empty_store 1 _ _ _) eq_refl)).
Defined.

Lemma failed_write_witness :
  api.posts_post sample_repr
                 (write_request "application/json" "text/plain" (JObject []))
                 one_post
  = (Ok unsupported_media_type, one_post, [])
  /\ (forall r, Ok unsupported_media_type = Ok r -> status r <> 201)
  /\ one_post = one_post /\ @nil call = [].
Proof.
  assert (H : forall r, Ok unsupported_media_type = Ok r -> status r <> 201)
    by (intros r [= <-]; discriminate).
  split; [ reflexivity | split; [ exact H | ] ].
  exact (proj1 (failed_write_changes_nothing
                  sample_repr
                  (write_request "application/json" "text/plain" (JObject []))
                  one_post 1 (Ok unsupported_media_type) one_post [])
               eq_refl H).
Defined.

Lemma created_post_witness :
  passes_accept (write_request "application/json" "application/json"
                               (JObject [("id", JInt 7); ("title", JString "A");
                                         ("body", JString "B")]))
  /\ passes_require (write_request "application/json" "application/json"
                                   (JObject [("id", JInt 7); ("title", JString "A");
                                             ("body", JString "B")]))
  /\ consistent one_post
  /\ exists (r : Response) (s' : Session),
       api.posts_post sample_repr
                      (write_request "application/json" "application/json"
                                     (JObject [("id", JInt 7); ("title", JString "A");
                                               ("body", JString "B")]))
                      one_post
       = (Ok r, s', [CAdd; CCommit])
       /\ status r = 201
       /\ api.post_get 2 (get_request "application/json" []) s'
          = (Ok (mkResponse (data r) 200 [] "application/json"), s', [CGet 2]).
Proof.
  split; [ reflexivity | split; [ reflexivity | split; [ exact one_post_is_consistent | ] ] ].
  exact (created_post_can_be_read
           sample_repr
           (write_request "application/json" "application/json"
                          (JObject [("id", JInt 7); ("title", JString "A");
                                    ("body", JString "B")]))
           (get_request "application/json" []) one_post _ "A" "B"
           eq_refl eq_refl eq_refl title_and_body_are_carried eq_refl
           one_post_is_consistent).
Defined.

Lemma updated_post_witness :
  clean one_post
  /\ find (table one_post) 1 = Some post_B
  /\ exists (r : Response) (s' : Session),
       api.post_put sample_repr 1
                    (write_request "application/json" "application/json"
                                   (JObject [("id", JInt 7); ("title", JString "A");
                                             ("body", JString "B")]))
                    one_post
       = (Ok r, s', [CGet 1; CAdd; CCommit])
       /\ status r = 202
       /\ api.post_get 1 (get_request "application/json" []) s'
          = (Ok (mkResponse (data r) 200 [] "application/json"), s', [CGet 1]).
Proof.
  split; [ reflexivity | split; [ reflexivity | ] ].
  exact (updated_post_can_be_read
           sample_repr
           (write_request "application/json" "application/json"
                          (JObject [("id", JInt 7); ("title", JString "A");
                                    ("body", JString "B")]))
           (get_request "application/json" []) one_post _ "A" "B" 1 post_B
           eq_refl eq_refl eq_refl title_and_body_are_carried eq_refl
           eq_refl eq_refl).
Defined.

Lemma put_is_idempotent_witness :
  clean one_post
  /\ find (table one_post) 1 = Some post_B
  /\ exists (r : Response) (s' : Session),
       api.post_put sample_repr 1
                    (write_request "application/json" "application/json"
                                   (JObject [("id", JInt 7); ("title", JString "A");
                                             ("body", JString "B")]))
                    one_post
       = (Ok r, s', [CGet 1; CAdd; CCommit])
       /\ api.post_put sample_repr 1
                       (write_request "application/json" "application/json"
                                      (JObject [("id", JInt 7); ("title", JString "A");
                                                ("body", JString "B")]))
                       s'
          = (Ok r, s', [CGet 1; CAdd; CCommit]).
Proof.
  split; [ reflexivity | split; [ reflexivity | ] ].
  exact (put_is_idempotent
           sample_repr
           (write_request "application/json" "application/json"
                          (JObject [("id", JInt 7); ("title", JString "A");
                                    ("body", JString "B")]))
           one_post _ "A" "B" 1 post_B
           eq_refl eq_refl eq_refl title_and_body_are_carried eq_refl eq_refl).
Defined.

Lemma consistency_witness :
  consistent one_post
  /\ consistent
       (snd (fst (api.posts_post
                    sample_repr
                    (write_request "application/json" "application/json"
                                   (JObject [("title", JString "A");
                                             ("body", JString "B")]))
                    one_post))).
Proof.
  split; [ exact one_post_is_consistent | ].
  exact (proj1 (proj2 (proj2 (consistency_is_kept
                                sample_repr
                                (write_request "application/json" "application/json"
                                               (JObject [("title", JString "A");
                                                         ("body", JString "B")]))
                                one_post 1 one_post_is_consistent)))).
Defined.

(** [test_get_posts], with an empty [title_like]. *)
Lemma unfiltered_list_witness :
  passes_accept (get_request "application/json" [("title_like", ""%string)])
  /\ consistent one_post
  /\ unfiltered (get_request "application/json" [("title_like", ""%string)])
  /\ api.posts_get (get_request "application/json" [("title_like", ""%string)]) one_post
     = (Ok (mkResponse (JArray [as_dictionary post_B]) 200 [] "application/json"),
        one_post, [CQuery]).
Proof.
  split; [ reflexivity | split; [ exact one_post_is_consistent | ] ].
  split; [ exact no_parameter_is_unfiltered | ].
  exact (unfiltered_list_is_the_table
           (get_request "application/json" [("title_like", ""%string)]) one_post
           eq_refl one_post_is_consistent no_parameter_is_unfiltered).
Defined.

(** The setup of [test_get_posts]. *)
Lemma tests_setup_witness :
  consistent empty_store
  /\ tests.add_all_and_commit
       [("Example Post A", "Just a test"); ("Example Post B", "Still a test")]
       (get_request "application/json" []) empty_store
     = (Ok [mkPost 1 "Example Post A" "Just a test";
            mkPost 2 "Example Post B" "Still a test"],
        mkSession [mkPost 1 "Example Post A" "Just a test";
                   mkPost 2 "Example Post B" "Still a test"]
                  [mkPost 1 "Example Post A" "Just a test";
                   mkPost 2 "Example Post B" "Still a test"] [] 3,
        [CAdd; CAdd; CCommit]).
Proof.
  split; [ exact empty_store_is_consistent | ].
  exact (proj1 (tests_setup_fills_the_table
                  [("Example Post A", "Just a test"); ("Example Post B", "Still a test")]
                  (get_request "application/json" [])
                  (get_request "application/json" [("title_like", ""%string)])
                  empty_store empty_store_is_consistent eq_refl
                  no_parameter_is_unfiltered)).
Defined.

Lemma next_post_witness :
  consistent one_post
  /\ find (table one_post) 1 = Some post_B
  /\ api.posts_post sample_repr
                    (write_request "application/json" "application/json"
                                   (JObject [("id", JInt 7); ("title", JString "A");
                                             ("body", JString "B")]))
                    (snd (fst (api.post_delete 1 (get_request "application/json" [])
                                               one_post)))
     = (Ok (mkResponse
              (JObject [("id", JInt 2); ("title", JString "A"); ("body", JString "B")])
              201 [("Location", "/api/posts/2"%string)] "application/json"),
        mkSession [mkPost 2 "A" "B"] [mkPost 2 "A" "B"] [] 3,
        [CAdd; CCommit]).
Proof.
  split; [ exact one_post_is_consistent | split; [ reflexivity | ] ].
  exact (proj1 (proj2 (next_post_commits_the_deletion
                         sample_repr (get_request "application/json" [])
                         (write_request "application/json" "application/json"
                                        (JObject [("id", JInt 7); ("title", JString "A");
                                                  ("body", JString "B")]))
                         one_post _ "A" "B" 1 post_B
                         eq_refl eq_refl eq_refl eq_refl title_and_body_are_carried
                         one_post_is_consistent eq_refl))).
Defined.

Lemma only_title_and_body_witness :
  clean one_post
  /\ carries [("id", JInt 7); ("title", JString "A"); ("body", JString "B")] "A" "B"
  /\ api.posts_post sample_repr
                    (write_request "application/json" "application/json"
                                   (JObject [("id", JInt 7); ("title", JString "A");
                                             ("body", JString "B")]))
                    one_post
     = api.posts_post sample_repr
                      (write_request "application/json" "application/json"
                                     (JObject [("title", JString "A");
                                               ("body", JString "B")]))
                      one_post.
Proof.
  split; [ reflexivity | split; [ exact title_and_body_are_carried | ] ].
  exact (proj1 (only_title_and_body_count
                  sample_repr
                  (write_request "application/json" "application/json"
                                 (JObject [("id", JInt 7); ("title", JString "A");
                                           ("body", JString "B")]))
                  one_post _ "A" "B" 1
                  eq_refl eq_refl eq_refl title_and_body_are_carried eq_refl)).
Defined.

End FurtherInstances.
